(** * tm1-log-tracker: the OData client (utils/odata.go) and the set-up in main.go

    A shallow embedding of the Go sources.  The HTTP client, the response
    bodies, the standard output and the clock are an explicit [World] that
    every operation threads through; [log.Fatal] (which is [os.Exit(1)]
    after printing) and run-time panics are results of their own, so that
    what runs after them (nothing, or only the deferred calls) is visible
    in the model. *)

From Stdlib Require Import ZArith String Ascii List Bool Lia.
From stdpp Require Import base option list gmap strings.

Local Open Scope string_scope.
Local Open Scope Z_scope.
Local Open Scope list_scope.

(** ** Requests and responses (net/http) *)

(** [http.Header]: a map from header name to the list of its values;
    [Add] appends a value to the list of the name.  Header names do not
    depend on case in HTTP ([net/http] files them under one canonical
    spelling); the model keeps the spelling of the source. *)
Abbreviation Header := (gmap string (list string)).

Definition Header_Add (key value : string) (h : Header) : Header :=
  <[key := default [] (h !! key) ++ [value]]> h.

Definition Header_Values (key : string) (h : Header) : list string :=
  default [] (h !! key).

Record Request := mkRequest {
  Method : string;
  URL : string;
  ReqHeader : Header;
  ReqBody : option string
}.

(** The request value [http.NewRequest(method, url, body)] creates for a URL
    it can parse; the URL is kept as the string the caller composed, which
    is also what printing the request shows. *)
Definition request_of (method urlStr : string) (body : option string) : Request :=
  {| Method := method; URL := urlStr; ReqHeader := ∅; ReqBody := body |}.

(** [http.NewRequest(method, url, body)] with a method that is valid, as
    GET and POST are: the request, or nil (with an error) when [url.Parse]
    refuses the URL.  [parses] says which strings [url.Parse] accepts. *)
Definition NewRequest (parses : string -> bool) (method urlStr : string)
    (body : option string) : option Request :=
  if parses urlStr then Some (request_of method urlStr body) else None.

(** What the run time reports when a method is called on a nil request. *)
Definition nil_dereference : string :=
  "runtime error: invalid memory address or nil pointer dereference".

Definition req_Header_Add (key value : string) (req : Request) : Request :=
  {| Method := Method req; URL := URL req;
     ReqHeader := Header_Add key value (ReqHeader req);
     ReqBody := ReqBody req |}.

(** What the transport hands back for one round trip. *)
Record RawResponse := mkRaw {
  raw_code : Z;
  raw_status : string;
  raw_body : string
}.

(** [*http.Response]: [Body] is a handle on a stream owned by the world. *)
Record Response := mkResponse {
  StatusCode : Z;
  Status : string;
  Body : nat
}.

(** A response body stream: what has not been read yet, and whether
    [Close] was called on it. *)
Record BodyState := mkBody {
  unread : string;
  closed : bool
}.

Inductive Event :=
| EvDo (req : Request)          (* client.Do(req) *)
| EvProcess (body : string)     (* processResponse(body) *)
| EvSleep (d : Z)               (* time.Sleep(d), d in nanoseconds *)
| EvClose (id : nat).           (* resp.Body.Close() *)

(** ** Results *)

Inductive Result (A : Type) :=
| Ok (a : A)
| Fatal (msg : string)   (* log.Fatal: the process exits, deferred calls do not run *)
| Panic (msg : string)   (* run-time panic: deferred calls run while unwinding *)
| OutOfFuel.             (* the model ran out of fuel *)
Arguments Ok {A} a.
Arguments Fatal {A} msg.
Arguments Panic {A} msg.
Arguments OutOfFuel {A}.

Definition is_empty (s : string) : bool :=
  match s with
  | EmptyString => true
  | String _ _ => false
  end.

Section Client.

(** [Net] is the state behind [http.Client.Do] (connections, cookie jar,
    the server itself); [CB] is the state the processing callback owns. *)
Context {Net CB : Type}.
Variable RoundTrip : Net -> Request -> Net * (string + RawResponse).

(** The strings [url.Parse] accepts. *)
Variable url_ok : string -> bool.

Record World := mkWorld {
  Verbose : bool;            (* var Verbose *)
  net : Net;
  bodies : list BodyState;   (* indexed by [Body] handles *)
  deferred : list nat;       (* bodies whose Close the running function deferred, newest first *)
  stdout : list string;
  trace : list Event;
  user : CB
}.

Definition M (A : Type) : Type := World -> Result A * World.

Definition ret {A} (a : A) : M A := fun w => (Ok a, w).

Definition bind {A B} (m : M A) (k : A -> M B) : M B := fun w =>
  match m w with
  | (Ok a, w') => k a w'
  | (Fatal msg, w') => (Fatal msg, w')
  | (Panic msg, w') => (Panic msg, w')
  | (OutOfFuel, w') => (OutOfFuel, w')
  end.

Notation "x <-- m ;; k" := (bind m (fun x => k))
  (at level 100, m at next level, right associativity).

Definition log_Fatal {A} (msg : string) : M A := fun w => (Fatal msg, w).

(** A run-time panic. *)
Definition go_panic {A} (msg : string) : M A := fun w => (Panic msg, w).

Definition out_of_fuel {A} : M A := fun w => (OutOfFuel, w).

Definition emit (e : Event) : M unit := fun w =>
  (Ok tt, {| Verbose := Verbose w; net := net w; bodies := bodies w;
             deferred := deferred w; stdout := stdout w;
             trace := trace w ++ [e]; user := user w |}).

Definition set_bodies (bs : list BodyState) (w : World) : World :=
  {| Verbose := Verbose w; net := net w; bodies := bs;
     deferred := deferred w; stdout := stdout w;
     trace := trace w; user := user w |}.

Definition set_deferred (ds : list nat) (w : World) : World :=
  {| Verbose := Verbose w; net := net w; bodies := bodies w;
     deferred := ds; stdout := stdout w;
     trace := trace w; user := user w |}.

(** [fmt.Println] *)
Definition Println (line : string) : M unit := fun w =>
  (Ok tt, {| Verbose := Verbose w; net := net w; bodies := bodies w;
             deferred := deferred w; stdout := stdout w ++ [line];
             trace := trace w; user := user w |}).

Definition when (b : bool) (m : M unit) : M unit :=
  if b then m else ret tt.

Definition get_Verbose : M bool := fun w => (Ok (Verbose w), w).

(** [client.Do(req)]: one round trip; a response comes with a fresh, open,
    unread body. *)
Definition Do (req : Request) : M (string + Response) := fun w =>
  let '(n', r) := RoundTrip (net w) req in
  match r with
  | inl err =>
      (Ok (inl err),
       {| Verbose := Verbose w; net := n'; bodies := bodies w;
          deferred := deferred w; stdout := stdout w;
          trace := trace w ++ [EvDo req]; user := user w |})
  | inr raw =>
      (Ok (inr {| StatusCode := raw_code raw; Status := raw_status raw;
                  Body := length (bodies w) |}),
       {| Verbose := Verbose w; net := n';
          bodies := bodies w ++ [{| unread := raw_body raw; closed := false |}];
          deferred := deferred w; stdout := stdout w;
          trace := trace w ++ [EvDo req]; user := user w |})
  end.

(** [ioutil.ReadAll(resp.Body)] with the error dropped, as every caller
    does: everything not read yet; nothing from a closed body. *)
Definition ReadAll (id : nat) : M string := fun w =>
  match bodies w !! id with
  | Some b =>
      if closed b then (Ok "", w)
      else (Ok (unread b),
            set_bodies (<[id := {| unread := ""; closed := false |}]> (bodies w)) w)
  | None => (Ok "", w)
  end.

(** [resp.Body.Close()] *)
Definition Close (id : nat) : M unit := fun w =>
  let bs := match bodies w !! id with
            | Some b => <[id := {| unread := unread b; closed := true |}]> (bodies w)
            | None => bodies w
            end in
  (Ok tt, {| Verbose := Verbose w; net := net w; bodies := bs;
             deferred := deferred w; stdout := stdout w;
             trace := trace w ++ [EvClose id]; user := user w |}).

(** [defer resp.Body.Close()]: the call is only recorded; it runs when the
    surrounding function returns. *)
Definition DeferClose (id : nat) : M unit := fun w =>
  (Ok tt, set_deferred (id :: deferred w) w).

Fixpoint run_deferred (ds : list nat) (w : World) : World :=
  match ds with
  | [] => w
  | id :: ds' => run_deferred ds' (snd (Close id w))
  end.

(** A Go function body with its deferred calls: they run, last deferred
    first, when the body returns or panics, and not at all when the process
    exits through [log.Fatal]. *)
Definition func {A} (body : M A) : M A := fun w =>
  let saved := deferred w in
  match body (set_deferred [] w) with
  | (Ok a, w') => (Ok a, set_deferred saved (run_deferred (deferred w') w'))
  | (Panic msg, w') => (Panic msg, set_deferred saved (run_deferred (deferred w') w'))
  | (Fatal msg, w') => (Fatal msg, w')
  | (OutOfFuel, w') => (OutOfFuel, w')
  end.

(** ** utils/odata.go *)

(** Every function below drops the error of [http.NewRequest] and goes on
    with the request; when that is nil, the first [req.Header.Add] panics. *)
Definition ExecuteGETRequest (urlStr : string) : M Response :=
  (* Create new, GET, request *)
  match NewRequest url_ok "GET" urlStr None with
  | None => go_panic nil_dereference
  | Some req =>
      (* Add the OData-Version header *)
      let req := req_Header_Add "OData-Version" "4.0" req in
      (* We'll be expecting a JSON formatted response *)
      let req := req_Header_Add "Accept" "application/json" req in
      v <-- get_Verbose ;;
      _ <-- when v (Println (Method req +:+ " " +:+ URL req)) ;;
      (* Execute the request *)
      r <-- Do req ;;
      match r with
      | inl err => log_Fatal err
      | inr resp => ret resp
      end
  end.

Definition ExecuteGETRequestEx (urlStr : string) (preReq : Request -> M Request)
  : M Response :=
  match NewRequest url_ok "GET" urlStr None with
  | None => go_panic nil_dereference
  | Some req =>
      let req := req_Header_Add "OData-Version" "4.0" req in
      let req := req_Header_Add "Accept" "application/json" req in
      (* Allow additional processing of the request before actually executing *)
      req <-- preReq req ;;
      v <-- get_Verbose ;;
      _ <-- when v (Println (Method req +:+ " " +:+ URL req)) ;;
      r <-- Do req ;;
      match r with
      | inl err => log_Fatal err
      | inr resp => ret resp
      end
  end.

Definition ExecutePOSTRequest (urlStr contentType body : string) : M Response :=
  (* Create new, POST, request *)
  match NewRequest url_ok "POST" urlStr (Some body) with
  | None => go_panic nil_dereference
  | Some req =>
      let req := req_Header_Add "Content-Type" contentType req in
      (* Add the OData-Version header *)
      let req := req_Header_Add "OData-Version" "4.0" req in
      (* We'll be expecting a JSON formatted response *)
      let req := req_Header_Add "Accept" "application/json" req in
      v <-- get_Verbose ;;
      _ <-- when v (_ <-- Println (Method req +:+ " " +:+ URL req) ;; Println body) ;;
      (* Execute the request *)
      r <-- Do req ;;
      match r with
      | inl err => log_Fatal err
      | inr resp => ret resp
      end
  end.

Definition ExecutePOSTRequestEx (urlStr contentType body : string)
    (preReq : Request -> M Request) : M Response :=
  match NewRequest url_ok "POST" urlStr (Some body) with
  | None => go_panic nil_dereference
  | Some req =>
      let req := req_Header_Add "Content-Type" contentType req in
      let req := req_Header_Add "OData-Version" "4.0" req in
      let req := req_Header_Add "Accept" "application/json" req in
      (* Allow additional processing of the request before actually executing *)
      req <-- preReq req ;;
      v <-- get_Verbose ;;
      _ <-- when v (_ <-- Println (Method req +:+ " " +:+ URL req) ;; Println body) ;;
      r <-- Do req ;;
      match r with
      | inl err => log_Fatal err
      | inr resp => ret resp
      end
  end.

(** The processing callback: a function of the response body that owns a
    state of its own and may itself end the process ([log.Fatal] on a body
    it cannot decode) or panic. *)
Definition Callback (R : Type) : Type := CB -> string -> CB * Result R.

Definition call {R} (processResponse : Callback R) (body : string) : M R := fun w =>
  let '(s', r) := processResponse (user w) body in
  (r, {| Verbose := Verbose w; net := net w; bodies := bodies w;
         deferred := deferred w; stdout := stdout w;
         trace := trace w ++ [EvProcess body]; user := s' |}).

(** [time.Sleep(d)] *)
Definition Sleep (d : Z) : M unit := emit (EvSleep d).

(** The loop of [IterateCollection]; [fuel] bounds the number of pages. *)
Fixpoint IterateLoop (fuel : nat) (datasourceServiceRootURL nextLink : string)
    (processResponse : Callback (Z * string)) : M unit :=
  if is_empty nextLink then ret tt
  else
    match fuel with
    | O => out_of_fuel
    | S fuel' =>
        resp <-- ExecuteGETRequest (datasourceServiceRootURL +:+ nextLink) ;;
        _ <-- DeferClose (Body resp) ;;
        body <-- ReadAll (Body resp) ;;
        v <-- get_Verbose ;;
        _ <-- when v (Println body) ;;
        (* Process the response *)
        r <-- call processResponse body ;;
        IterateLoop fuel' datasourceServiceRootURL (snd r) processResponse
    end.

Definition IterateCollection (fuel : nat) (datasourceServiceRootURL urlStr : string)
    (processResponse : Callback (Z * string)) : M unit :=
  func (IterateLoop fuel datasourceServiceRootURL urlStr processResponse).

(** The pre-request hook of [TrackCollection]:
    [func(req) { req.Header.Add("Prefer", "odata.track-changes") }]. *)
Definition PreferTrackChanges (req : Request) : M Request :=
  ret (req_Header_Add "Prefer" "odata.track-changes" req).

(** One pass through the body of the loop of [TrackCollection], up to the
    return of the callback: request, deferred close, drain, callback.  The
    result is the pair (nextLink, deltaLink). *)
Definition TrackFetch (serviceRootURL urlStr : string)
    (processResponse : Callback (string * string)) : M (string * string) :=
  resp <-- ExecuteGETRequestEx (serviceRootURL +:+ urlStr) PreferTrackChanges ;;
  _ <-- DeferClose (Body resp) ;;
  body <-- ReadAll (Body resp) ;;
  v <-- get_Verbose ;;
  _ <-- when v (Println body) ;;
  (* Process the response *)
  call processResponse body.

(** The loop of [TrackCollection]; [fuel] bounds the number of cycles. *)
Fixpoint TrackLoop (fuel : nat) (serviceRootURL urlStr : string) (interval : Z)
    (processResponse : Callback (string * string)) : M unit :=
  if is_empty urlStr then ret tt
  else
    match fuel with
    | O => out_of_fuel
    | S fuel' =>
        links <-- TrackFetch serviceRootURL urlStr processResponse ;;
        let '(nextLink, deltaLink) := links in
        if negb (is_empty nextLink) then
          (* Continue processing the collection being returned *)
          TrackLoop fuel' serviceRootURL nextLink interval processResponse
        else if negb (is_empty deltaLink) then
          (* Wait before querying for the next deltaLink *)
          _ <-- Sleep interval ;;
          (* Continue with the deltaLink *)
          TrackLoop fuel' serviceRootURL deltaLink interval processResponse
        else
          (* Seems the server is no longer willing to give us deltas. *)
          ret tt
    end.

Definition TrackCollection (fuel : nat) (serviceRootURL urlStr : string) (interval : Z)
    (processResponse : Callback (string * string)) : M unit :=
  func (TrackLoop fuel serviceRootURL urlStr interval processResponse).

Definition CRLF : string := String (ascii_of_nat 13) (String (ascii_of_nat 10) "").

Definition ValidateStatusCode (resp : Response) (statusCode : Z)
    (logFmt : unit -> string) : M unit :=
  func (
    if negb (StatusCode resp =? statusCode) then
      _ <-- DeferClose (Body resp) ;;
      body <-- ReadAll (Body resp) ;;
      log_Fatal (logFmt tt +:+ CRLF +:+ "Server responded with: " +:+ Status resp
                 +:+ CRLF +:+ body)
    else ret tt).

End Client.

Arguments World : clear implicits.
Arguments M : clear implicits.
Arguments Callback : clear implicits.

(** ** A transport that replays injected responses

    The test double of the specification: the transport answers the n-th
    round trip with the n-th seeded entry, whatever the request, and fails
    once the seeded entries are used up. *)
Definition Replay (q : list (string + RawResponse)) (req : Request)
  : list (string + RawResponse) * (string + RawResponse) :=
  match q with
  | [] => ([], inl "EOF")
  | r :: q' => (q', r)
  end.

(** ** main.go *)

(** [os.Getenv]: the value of the variable, empty when it is not set. *)
Definition Getenv (env : gmap string string) (key : string) : string :=
  default "" (env !! key).

Definition digit_of (c : ascii) : option Z :=
  let n := Z.of_nat (nat_of_ascii c) in
  if (48 <=? n) && (n <=? 57) then Some (n - 48) else None.

(** The decimal value of a string of digits, read left to right. *)
Fixpoint parse_digits (acc : Z) (s : string) : option Z :=
  match s with
  | EmptyString => Some acc
  | String c s' =>
      match digit_of c with
      | Some d => parse_digits (10 * acc + d) s'
      | None => None
      end
  end.

Definition MaxInt64 : Z := 9223372036854775807.
Definition MinInt64 : Z := -9223372036854775808.
Definition MaxUint64 : Z := 18446744073709551615.

Inductive NumError := ErrSyntax | ErrRange.

(** The loop of [strconv.ParseUint] for base 10 and 64 bits, byte by byte:
    a byte that is no digit is a syntax error; a digit that takes the value
    past [MaxUint64] ends the scan at once with that value and a range
    error, whatever follows. *)
Fixpoint ParseUint_loop (n : Z) (s : string) : Z * option NumError :=
  match s with
  | EmptyString => (n, None)
  | String c s' =>
      match digit_of c with
      | None => (0, Some ErrSyntax)
      | Some d =>
          if MaxUint64 / 10 + 1 <=? n then (MaxUint64, Some ErrRange)
          else if MaxUint64 <? 10 * n + d then (MaxUint64, Some ErrRange)
          else ParseUint_loop (10 * n + d) s'
      end
  end.

Definition ParseUint (s : string) : Z * option NumError :=
  if is_empty s then (0, Some ErrSyntax) else ParseUint_loop 0 s.

(** [strconv.Atoi] where [int] has 64 bits: an optional sign, then
    [ParseUint] on the rest.  The result is the value and whether an error
    is returned: on a syntax error the value is 0, on a value out of range
    it is the nearest of [MinInt64] and [MaxInt64]. *)
Definition Atoi (s : string) : Z * bool :=
  match s with
  | EmptyString => (0, true)
  | String c rest =>
      let '(neg, digits) :=
        if Ascii.eqb c "+" then (false, rest)
        else if Ascii.eqb c "-" then (true, rest)
        else (false, s) in
      match ParseUint digits with
      | (_, Some ErrSyntax) => (0, true)
      | (un, _) =>
          if negb neg && (MaxInt64 <? un) then (MaxInt64, true)
          else if neg && (- MinInt64 <? un) then (MinInt64, true)
          else (if neg then - un else un, false)
      end
  end.

(** The value of the variable [interval] after lines 126-129 of main.go. *)
Definition main_interval (env : gmap string string) : Z :=
  let interval := fst (Atoi (Getenv env "TM1_TRACKER_INTERVAL")) in
  if interval <? 1 then 5 else interval.

(** Arithmetic on [int64], the type under [time.Duration]: results wrap. *)
Definition wrap64 (z : Z) : Z := (z + 2 ^ 63) mod 2 ^ 64 - 2 ^ 63.

Definition Second : Z := 1000000000.

(** [time.Duration(interval)*time.Second], the argument main passes to
    [TrackCollection]. *)
Definition main_duration (env : gmap string string) : Z :=
  wrap64 (main_interval env * Second).

(** Go compares strings byte by byte. *)
Fixpoint string_ltb (a b : string) : bool :=
  match a, b with
  | _, EmptyString => false
  | EmptyString, String _ _ => true
  | String x a', String y b' =>
      if (nat_of_ascii x <? nat_of_ascii y)%nat then true
      else if (nat_of_ascii y <? nat_of_ascii x)%nat then false
      else string_ltb a' b'
  end.

Definition LF : string := String (ascii_of_nat 10) "".

(** The version gate of main (lines 187-189) applied to the body of the
    version response: [string(version)[0:10]] panics when the body has fewer
    than 10 bytes. *)
Definition main_version_gate (version : string) : Result unit :=
  if (String.length version <? 10)%nat then
    Panic "runtime error: slice bounds out of range"
  else if string_ltb (substring 0 10 version) "10.2.20500" then
    Fatal ("The TM1 Server version of your server is: " +:+ version +:+ " " +:+ LF
           +:+ " Minimal required version to use a tracker is 10.2.2 FP5!" +:+ LF)
  else Ok tt.


(** ** main.go: processing the message log entries *)

(** [MessageLogEntry] *)
Record MessageLogEntry := mkEntry {
  SessionID : Z;
  ThreadID : Z;
  Logger : string;
  Level : string;
  TimeStamp : string;
  Message : string
}.

(** [MessageLogEntriesResponse]: the decoded response body. *)
Record MessageLogEntriesResponse := mkEntries {
  ODataContext : string;                       (* Context, "@odata.context" *)
  Count : Z;
  MessageLogEntries : list MessageLogEntry;
  NextLink : string;
  DeltaLink : string
}.

(** [odata.Verbose = false] *)
Definition set_Verbose {Net CB : Type} (v : bool) : M Net CB unit := fun w =>
  (Ok tt, {| Verbose := v; net := net w; bodies := bodies w;
             deferred := deferred w; stdout := stdout w;
             trace := trace w; user := user w |}).

(** A result computed without the world. *)
Definition lift_result {Net CB A : Type} (r : Result A) : M Net CB A := fun w => (r, w).

(** [req.Header.Set(key, value)]: the value replaces what the name had. *)
Definition Header_Set (key value : string) (h : Header) : Header :=
  <[key := [value]]> h.

Section Main.

(** [Time] stands for [time.Time]; [url_ok] says which strings [url.Parse]
    accepts.  The three functions are the library calls of main.go that are
    not modelled further:
    [time.Parse(time.RFC3339Nano, s)] with its error dropped,
    [json.Unmarshal] into a [MessageLogEntriesResponse] (the error message
    on the left), and [base64.StdEncoding.EncodeToString]. *)
Context {Net Time : Type}.
Variable RoundTrip : Net -> Request -> Net * (string + RawResponse).
Variable url_ok : string -> bool.
Variable time_Parse : string -> Time.
Variable json_Unmarshal : string -> string + MessageLogEntriesResponse.
Variable b64_EncodeToString : string -> string.

(** A line written by [fmt.Printf] in [processMessageLogEntries], by its
    format and arguments: ["QUERY,%d,%s,%s,%0.3f\n"] with the count, the two
    time stamps and the seconds between them, ["ERROR,%d,ERROR,ERROR,0.000\n"]
    and ["ERROR,%d,VIEW CREATED EXPECTED,ERROR,0.000\n"] with the count. *)
Inductive Line :=
| QUERY (count : Z) (tsStart tsEntry : Time)
| ERROR (count : Z)
| VIEW_CREATED_EXPECTED (count : Z).

(** The package variables [threadMap] and [queryCount] (a nil map reads as
    the empty one, and is made before it is written), and what was printed. *)
Record Tracker := mkTracker {
  threadMap : gmap Z Time;
  queryCount : Z;
  printed : list Line
}.

(** The body of the loop over the entries. *)
Definition processEntry (st : Tracker) (entry : MessageLogEntry) : Tracker :=
  if String.eqb (Logger entry) "TM1.MdxViewCreate" then
    (* Parse the time stamp for this entry *)
    let tsEntry := time_Parse (TimeStamp entry) in
    (* Is this the entry indicating that a new view was created? *)
    if String.eqb (Message entry) "View is created." then
      let count := wrap64 (queryCount st + 1) in
      (* Lookup this thread in the thread map *)
      match threadMap st !! ThreadID entry with
      | Some tsStart =>
          {| threadMap := delete (ThreadID entry) (threadMap st);
             queryCount := count;
             printed := printed st ++ [QUERY count tsStart tsEntry] |}
      | None =>
          {| threadMap := threadMap st;
             queryCount := count;
             printed := printed st ++ [ERROR count] |}
      end
    else
      match threadMap st !! ThreadID entry with
      | None =>
          {| threadMap := <[ThreadID entry := tsEntry]> (threadMap st);
             queryCount := queryCount st;
             printed := printed st |}
      | Some _ =>
          {| threadMap := threadMap st;
             queryCount := queryCount st;
             printed := printed st ++ [VIEW_CREATED_EXPECTED (queryCount st)] |}
      end
  else st.

Definition processMessageLogEntries : Callback Tracker (string * string) :=
  fun st responseBody =>
    (* Unmarshal the JSON response *)
    match json_Unmarshal responseBody with
    | inl err => (st, Fatal err)
    | inr res =>
        (* Iterate over the message log entries retrieved from the server *)
        (fold_left processEntry (MessageLogEntries res) st,
         (* Return the nextLink and deltaLink, if there any *)
         Ok (NextLink res, DeltaLink res))
    end.

(** [req.SetBasicAuth(username, password)] *)
Definition req_SetBasicAuth (username password : string) (req : Request) : Request :=
  {| Method := Method req; URL := URL req;
     ReqHeader := Header_Set "Authorization"
                    ("Basic " +:+ b64_EncodeToString (username +:+ ":" +:+ password))
                    (ReqHeader req);
     ReqBody := ReqBody req |}.

(** What main does to its request between creating and sending it (lines
    150-166): the credentials of the authentication mode, then Accept. *)
Definition main_authorize (env : gmap string string) (req : Request) : Request :=
  let req :=
    if String.eqb (Getenv env "TM1_AUTHENTICATION") "CAM" then
      (* Add the Authorization header triggering the CAM authentication *)
      let cred := b64_EncodeToString
                    (Getenv env "TM1_USER" +:+ ":" +:+ Getenv env "TM1_PASSWORD" +:+ ":"
                     +:+ Getenv env "TM1_CAM_NAMESPACE") in
      req_Header_Add "Authorization" ("CAMNamespace " +:+ cred) req
    else
      (* TM1 authentication maps to basic HTTP authentication *)
      req_SetBasicAuth (Getenv env "TM1_USER") (Getenv env "TM1_PASSWORD") req in
  req_Header_Add "Accept" "*/*" req.

Definition main_version_url (env : gmap string string) : string :=
  Getenv env "TM1_SERVICE_ROOT_URL" +:+ "Configuration/ProductVersion/$value".

(** The request of main for the version of the server (lines 141-166), as
    it is when [http.NewRequest] could create it. *)
Definition main_version_request (env : gmap string string) : Request :=
  main_authorize env (request_of "GET" (main_version_url env) None).

Definition main_version_context (_ : unit) : string :=
  "Server responded with an unexpected result while asking for its version number.".

(** [main].  [dotenv] is the environment once [godotenv.Load] has added the
    variables of the .env file, [None] when it could not load the file.
    main too drops the error of [http.NewRequest]: on a nil request the
    first use of it, [req.Header.Add] or [req.SetBasicAuth], panics. *)
Definition main (dotenv : option (gmap string string)) (fuel : nat)
  : M Net Tracker unit :=
  match dotenv with
  | None => log_Fatal "Error loading .env file"
  | Some env =>
      let tm1ServiceRootURL := Getenv env "TM1_SERVICE_ROOT_URL" in
      (* Turn 'Verbose' mode off *)
      bind (set_Verbose false) (fun _ =>
      match NewRequest url_ok "GET" (main_version_url env) None with
      | None => go_panic nil_dereference
      | Some req =>
          let req := main_authorize env req in
          (* Let's execute the request *)
          bind (Do RoundTrip req) (fun r =>
          match r with
          | inl err => log_Fatal err
          | inr resp =>
              (* Validate that the request executed successfully *)
              bind (ValidateStatusCode resp 200 main_version_context) (fun _ =>
              (* The body simply contains the version number of the server *)
              bind (ReadAll (Body resp)) (fun version =>
              bind (Close (Body resp)) (fun _ =>
              bind (lift_result (main_version_gate version)) (fun _ =>
              TrackCollection RoundTrip url_ok fuel tm1ServiceRootURL "MessageLogEntries"
                (main_duration env) processMessageLogEntries))))
          end)
      end)
  end.

End Main.
(** * Properties *)

(** The request [TrackCollection] builds for a URL: the two headers of every
    GET request, then the header its pre-request hook adds. *)
Definition TrackRequest (urlStr : string) : Request :=
  req_Header_Add "Prefer" "odata.track-changes"
    (req_Header_Add "Accept" "application/json"
       (req_Header_Add "OData-Version" "4.0" (request_of "GET" urlStr None))).

(** The request [IterateCollection] builds for a URL. *)
Definition PlainRequest (urlStr : string) : Request :=
  req_Header_Add "Accept" "application/json"
    (req_Header_Add "OData-Version" "4.0" (request_of "GET" urlStr None)).

Definition requests (t : list Event) : list Request :=
  omap (fun e => match e with EvDo req => Some req | _ => None end) t.

Definition processed (t : list Event) : list string :=
  omap (fun e => match e with EvProcess b => Some b | _ => None end) t.

Definition sleeps (t : list Event) : list Z :=
  omap (fun e => match e with EvSleep d => Some d | _ => None end) t.

Definition closes (t : list Event) : list nat :=
  omap (fun e => match e with EvClose id => Some id | _ => None end) t.

(** Bodies on which [Close] has not been called. *)
Definition open_bodies (bs : list BodyState) : nat :=
  length (filter (fun b => closed b = false) bs).

(** What [fmt.Println(req.Method, req.URL)] and [fmt.Println(string(body))]
    add to the standard output when [Verbose] is set. *)
Definition verbose_lines (v : bool) (lines : list string) : list string :=
  if v then lines else [].


(** The three headers the specification requires on a delta-tracking
    request, each carried once with the stated value. *)
Definition track_headers (req : Request) : Prop :=
  Header_Values "OData-Version" (ReqHeader req) = ["4.0"]
  /\ Header_Values "Accept" (ReqHeader req) = ["application/json"]
  /\ Header_Values "Prefer" (ReqHeader req) = ["odata.track-changes"].

(** A callback that answers like [pr] except that it blanks the delta token
    whenever the next-page token is not empty. *)
Definition drop_delta {CB : Type} (pr : Callback CB (string * string))
  : Callback CB (string * string) := fun s body =>
  (fst (pr s body),
   match snd (pr s body) with
   | Ok (nextLink, deltaLink) =>
       Ok (nextLink, if is_empty nextLink then deltaLink else "")
   | r => r
   end).

(** The callback, started in state [s], answers the bodies of [bodies] one
    after the other with the results [outs] and ends in state [s']. *)
Fixpoint callback_yields {CB R : Type} (pr : Callback CB R) (s : CB)
    (bodies : list string) (outs : list R) (s' : CB) : Prop :=
  match bodies, outs with
  | [], [] => s' = s
  | b :: bodies', o :: outs' =>
      exists s1, pr s b = (s1, Ok o) /\ callback_yields pr s1 bodies' outs' s'
  | _, _ => False
  end.

(** The events of consecutive cycles: the request for each link, followed by
    the callback on the body that came back. *)
Fixpoint cycle_events (mk : string -> Request) (root : string)
    (links bodies : list string) : list Event :=
  match links, bodies with
  | l :: links', b :: bodies' =>
      EvDo (mk (root +:+ l)) :: EvProcess b :: cycle_events mk root links' bodies'
  | _, _ => []
  end.

(** *** Concrete inputs used below *)

Abbreviation Replayed := (list (string + RawResponse)).

Definition answer_more : RawResponse := mkRaw 200 "200 OK" "more".
Definition answer_done : RawResponse := mkRaw 200 "200 OK" "done".

(** A callback without state: no next link; a delta link on every body but
    the body "done". *)
Definition delta_until_done : Callback unit (string * string) := fun s body =>
  (s, Ok ("", if String.eqb body "done" then "" else "delta")).

(** A replaying transport seeded with [N] answers that come with a delta
    link and a last one that comes with none; nothing else has happened. *)
Definition leak_world (N : nat) : World Replayed unit :=
  {| Verbose := false; net := replicate N (inr answer_more) ++ [inr answer_done];
     bodies := []; deferred := []; stdout := []; trace := []; user := tt |}.

(** A callback that counts its invocations: the first answer has both
    links, the second only a delta link, every later one none. *)
Definition demo_pr : Callback nat (string * string) := fun n body =>
  (S n, match n with
        | O => Ok ("p2", "d0")
        | 1%nat => Ok ("", "d1")
        | _ => Ok ("", "")
        end).

(** A callback for [IterateCollection] that counts its invocations: the
    first answer has a link, every later one none. *)
Definition demo_iter_pr : Callback nat (Z * string) := fun n body =>
  (S n, match n with
        | O => Ok (2, "page2")
        | _ => Ok (1, "")
        end).

Definition demo_root : string := "http://tm1:8000/api/v1/".

Definition demo_world {CB : Type} (q : Replayed) (s : CB) : World Replayed CB :=
  {| Verbose := false; net := q; bodies := []; deferred := [];
     stdout := []; trace := []; user := s |}.

Definition three_responses : Replayed :=
  [inr (mkRaw 200 "200 OK" "page1"); inr (mkRaw 200 "200 OK" "page2");
   inr (mkRaw 200 "200 OK" "delta1")].

(** The byte of a string at an index (0 past the end). *)
Definition byte_at (s : string) (i : nat) : nat :=
  match String.get i s with
  | Some c => nat_of_ascii c
  | None => 0%nat
  end.

(** [a] is below [b] in the lexicographic order of their first [k] bytes. *)
Definition lex_lt_first (k : nat) (a b : string) : Prop :=
  exists i, (i < k)%nat
            /\ (forall j, (j < i)%nat -> byte_at a j = byte_at b j)
            /\ (byte_at a i < byte_at b i)%nat.

Fixpoint all_digits (s : string) : bool :=
  match s with
  | EmptyString => true
  | String c s' => match digit_of c with Some _ => all_digits s' | None => false end
  end.

(** The environment in which only the polling interval is configured. *)
Definition interval_env (value : string) : gmap string string :=
  {[ "TM1_TRACKER_INTERVAL" := value ]}.

(** A world in which one response with an unread body has been received. *)
Definition not_found_world : World unit unit :=
  {| Verbose := false; net := tt;
     bodies := [{| unread := "no such resource"; closed := false |}];
     deferred := []; stdout := []; trace := []; user := tt |}.

Definition not_found : Response :=
  {| StatusCode := 404; Status := "404 Not Found"; Body := 0 |}.

Definition version_context (_ : unit) : string :=
  "Server responded with an unexpected result while asking for its version number.".

Definition two_pages : list RawResponse :=
  [mkRaw 200 "200 OK" "page1"; mkRaw 200 "200 OK" "page2"].

(** *** Vocabulary for the further properties *)

(** The request [ExecutePOSTRequest] builds. *)
Definition PostRequest (urlStr contentType body : string) : Request :=
  req_Header_Add "Accept" "application/json"
    (req_Header_Add "OData-Version" "4.0"
       (req_Header_Add "Content-Type" contentType
          (request_of "POST" urlStr (Some body)))).

(** A transport that answers like [RT] but with the status code and status
    line of every response replaced by [f] of that response. *)
Definition restatus {Net : Type} (f : RawResponse -> Z * string)
    (RT : Net -> Request -> Net * (string + RawResponse))
  : Net -> Request -> Net * (string + RawResponse) := fun n req =>
  (fst (RT n req),
   match snd (RT n req) with
   | inl err => inl err
   | inr raw => inr {| raw_code := fst (f raw); raw_status := snd (f raw);
                       raw_body := raw_body raw |}
   end).

Definition drained_open : BodyState := {| unread := ""; closed := false |}.
Definition drained_closed : BodyState := {| unread := ""; closed := true |}.

(** What a run of one of the two loops, started in [w] and ended with
    result [r] in [w'], has done: it obtained [k] bodies, which are the new
    handles, all drained, open and deferred for closing, newest first; it
    handed each to the callback; it closed nothing; it left [Verbose] alone
    and printed nothing unless [Verbose] was set; and it sent one request per
    body, plus one if it ended on a transport error. *)
Definition loop_frame {Net CB : Type} (w : World Net CB)
    (r : Result unit) (w' : World Net CB) (new : list Event) (k : nat) : Prop :=
  trace w' = trace w ++ new
  /\ bodies w' = bodies w ++ replicate k drained_open
  /\ deferred w' = rev (seq (length (bodies w)) k) ++ deferred w
  /\ length (processed new) = k
  /\ closes new = []
  /\ Verbose w' = Verbose w
  /\ (Verbose w = false -> stdout w' = stdout w)
  /\ (length (requests new) = k
      \/ (exists msg, r = Fatal msg) /\ length (requests new) = S k).

(** Is the result a return or a panic, the two ways a Go function can end
    that run its deferred calls? *)
Definition unwinds {A : Type} (r : Result A) : bool :=
  match r with
  | Ok _ | Panic _ => true
  | Fatal _ | OutOfFuel => false
  end.

(** Is the entry one of the logger [TM1.MdxViewCreate]? *)
Definition is_view_create (e : MessageLogEntry) : bool :=
  String.eqb (Logger e) "TM1.MdxViewCreate".

(** Is the entry the message of that logger that a view was created? *)
Definition is_created (e : MessageLogEntry) : bool :=
  is_view_create e && String.eqb (Message e) "View is created.".

(** The query number on a line that reports the creation of a view. *)
Definition result_count {Time : Type} (l : Line (Time := Time)) : option Z :=
  match l with
  | QUERY c _ _ => Some c
  | ERROR c => Some c
  | VIEW_CREATED_EXPECTED _ => None
  end.

(** The [n] numbers that follow [q]. *)
Fixpoint count_up (q : Z) (n : nat) : list Z :=
  match n with
  | O => []
  | S n' => (q + 1) :: count_up (q + 1) n'
  end.

(** A string without its leading sign, if it has one. *)
Definition strip_sign (s : string) : string :=
  match s with
  | EmptyString => EmptyString
  | String c rest => if Ascii.eqb c "+" || Ascii.eqb c "-" then rest else s
  end.

(** *** Concrete inputs for the further properties *)

(** A callback that cannot decode anything. *)
Definition failing_pr : Callback nat (string * string) := fun n body =>
  (n, Fatal "invalid character").

Definition entry_start : MessageLogEntry :=
  mkEntry 1 7 "TM1.MdxViewCreate" "INFO" "2017-03-01T10:00:00.000Z" "Creating view for MDX".

Definition entry_other : MessageLogEntry :=
  mkEntry 1 7 "TM1.Server" "INFO" "2017-03-01T10:00:01.000Z" "Login".

Definition entry_end : MessageLogEntry :=
  mkEntry 1 7 "TM1.MdxViewCreate" "INFO" "2017-03-01T10:00:02.000Z" "View is created.".

(** The tracker state at the start of the program, with time stamps kept as
    the strings they are read from. *)
Definition tracker0 : Tracker (Time := string) :=
  {| threadMap := ∅; queryCount := 0; printed := [] |}.

Definition tracker_started : Tracker (Time := string) :=
  {| threadMap := {[ 7 := "2017-03-01T09:59:00.000Z" ]}; queryCount := 0; printed := [] |}.

(** A decoder for the examples: every body is an empty page without links. *)
Definition demo_Unmarshal (body : string) : string + MessageLogEntriesResponse :=
  inr (mkEntries "" 0 [] "" "").

Definition demo_env : gmap string string :=
  <["TM1_SERVICE_ROOT_URL" := demo_root]> (interval_env "30").

Definition version_ok : RawResponse := mkRaw 200 "200 OK" "11.8.01900.10".
Definition version_unauthorized : RawResponse := mkRaw 401 "401 Unauthorized" "no".

Definition is_hex (c : ascii) : bool :=
  let n := nat_of_ascii c in
  ((48 <=? n) && (n <=? 57) || (65 <=? n) && (n <=? 70) || (97 <=? n) && (n <=? 102))%nat.

(** A URL acceptor for the examples: it refuses a percent sign that is not
    followed by two hexadecimal digits, which [url.Parse] refuses as an
    invalid escape, and accepts every other string.  It agrees with
    [url.Parse] on the URLs of the examples, which are either plain
    [http://host:port/path] strings or contain the escape "%zz". *)
Fixpoint escapes_ok (s : string) : bool :=
  match s with
  | EmptyString => true
  | String c s' =>
      if Ascii.eqb c "%" then
        match s' with
        | String a (String b s'') => is_hex a && is_hex b && escapes_ok s''
        | _ => false
        end
      else escapes_ok s'
  end.

(** A callback that counts its invocations and whose first answer names a
    next link that is no URL, with a delta link beside it. *)
Definition bad_link_pr : Callback nat (string * string) := fun n body =>
  (S n, match n with
        | O => Ok ("%zz", "d0")
        | _ => Ok ("", "")
        end).

(** A callback whose first answer names no next link and a delta link that
    is no URL. *)
Definition bad_delta_pr : Callback nat (string * string) := fun n body =>
  (S n, match n with
        | O => Ok ("", "%zz")
        | _ => Ok ("", "")
        end).

(** The same for [IterateCollection]. *)
Definition bad_link_iter_pr : Callback nat (Z * string) := fun n body =>
  (S n, match n with
        | O => Ok (2, "%zz")
        | _ => Ok (1, "")
        end).
Lemma is_empty_true s : is_empty s = true <-> s = "".
Proof. destruct s; simpl; split; congruence. Qed.

Lemma is_empty_false s : is_empty s = false <-> s <> "".
Proof. destruct s; simpl; split; congruence. Qed.

Section Tracker.

Context {Net CB : Type}.
Variable RoundTrip : Net -> Request -> Net * (string + RawResponse).
Variable url_ok : string -> bool.

Local Abbreviation World := (World Net CB).

Lemma lookup_fresh_body (bs : list BodyState) (b : BodyState) :
  (bs ++ [b]) !! length bs = Some b.
Proof. by apply list_lookup_middle. Qed.

Lemma insert_fresh_body (bs : list BodyState) (b b' : BodyState) :
  <[length bs := b']> (bs ++ [b]) = bs ++ [b'].
Proof.
  rewrite insert_app_r_alt by lia.
  by rewrite Nat.sub_diag.
Qed.

(** One cycle of the tracker up to the return of the callback, in closed
    form. *)
Lemma TrackFetch_eq root url (pr : Callback CB (string * string)) (w : World) :
  TrackFetch RoundTrip url_ok root url pr w =
  let req := TrackRequest (root +:+ url) in
  if url_ok (root +:+ url) then
    match RoundTrip (net w) req with
    | (n', inl err) =>
        (Fatal err,
         {| Verbose := Verbose w; net := n'; bodies := bodies w;
            deferred := deferred w;
            stdout := stdout w ++ verbose_lines (Verbose w) ["GET " +:+ (root +:+ url)];
            trace := trace w ++ [EvDo req]; user := user w |})
    | (n', inr raw) =>
        (snd (pr (user w) (raw_body raw)),
         {| Verbose := Verbose w; net := n';
            bodies := bodies w ++ [{| unread := ""; closed := false |}];
            deferred := length (bodies w) :: deferred w;
            stdout := stdout w ++
              verbose_lines (Verbose w) ["GET " +:+ (root +:+ url); raw_body raw];
            trace := trace w ++ [EvDo req; EvProcess (raw_body raw)];
            user := fst (pr (user w) (raw_body raw)) |})
    end
  else (Panic nil_dereference, w).
Proof.
  unfold TrackFetch, ExecuteGETRequestEx, NewRequest.
  destruct (url_ok (root +:+ url)); [| reflexivity].
  unfold PreferTrackChanges, bind, ret,
    get_Verbose, when, Do, log_Fatal, DeferClose, ReadAll, call, Println,
    set_deferred, set_bodies, TrackRequest.
  destruct w as [v n bs ds out tr u]; simpl.
  destruct (RoundTrip n _) as [n' [err | raw]] eqn:E.
  - destruct v; simpl; rewrite E; simpl; rewrite ?app_nil_r; reflexivity.
  - destruct v; simpl; rewrite E; simpl;
      rewrite lookup_fresh_body; simpl; rewrite insert_fresh_body;
      destruct (pr u (raw_body raw)) as [s' r]; simpl;
      rewrite <- ?app_assoc, ?app_nil_r; reflexivity.
Qed.

Lemma requests_app (t1 t2 : list Event) : requests (t1 ++ t2) = requests t1 ++ requests t2.
Proof. apply omap_app. Qed.

Lemma processed_app (t1 t2 : list Event) : processed (t1 ++ t2) = processed t1 ++ processed t2.
Proof. apply omap_app. Qed.

Lemma sleeps_app (t1 t2 : list Event) : sleeps (t1 ++ t2) = sleeps t1 ++ sleeps t2.
Proof. apply omap_app. Qed.

Lemma closes_app (t1 t2 : list Event) : closes (t1 ++ t2) = closes t1 ++ closes t2.
Proof. apply omap_app. Qed.

Lemma requests_closes (ds : list nat) : requests (map EvClose ds) = [].
Proof. induction ds; simpl; auto. Qed.

Lemma processed_closes (ds : list nat) : processed (map EvClose ds) = [].
Proof. induction ds; simpl; auto. Qed.

Lemma sleeps_closes (ds : list nat) : sleeps (map EvClose ds) = [].
Proof. induction ds; simpl; auto. Qed.

(** The deferred closes add their events to the trace, in the order they
    run, and nothing else. *)
Lemma run_deferred_trace (ds : list nat) : forall w : World,
  trace (run_deferred ds w) = trace w ++ map EvClose ds.
Proof.
  induction ds as [| id ds IH]; intros w; simpl.
  - by rewrite app_nil_r.
  - rewrite IH. simpl. by rewrite <- app_assoc.
Qed.

Lemma run_deferred_net (ds : list nat) : forall w : World,
  net (run_deferred ds w) = net w.
Proof. induction ds as [| id ds IH]; intros w; [reflexivity |]. cbn [run_deferred]. by rewrite IH. Qed.

Lemma run_deferred_user (ds : list nat) : forall w : World,
  user (run_deferred ds w) = user w.
Proof. induction ds as [| id ds IH]; intros w; [reflexivity |]. cbn [run_deferred]. by rewrite IH. Qed.

(** A function body and the function agree on the result; the function
    adds only the events of the deferred closes. *)
Lemma func_result {A} (body : M Net CB A) (w : World) :
  fst (func body w) = fst (body (set_deferred [] w)).
Proof.
  unfold func. by destruct (body (set_deferred [] w)) as [[a | m | m |] w'].
Qed.

Lemma func_trace {A} (body : M Net CB A) (w : World) :
  exists ds, trace (snd (func body w))
             = trace (snd (body (set_deferred [] w))) ++ map EvClose ds.
Proof.
  unfold func.
  destruct (body (set_deferred [] w)) as [[a | m | m |] w']; simpl.
  - exists (deferred w'). apply run_deferred_trace.
  - exists []. by rewrite app_nil_r.
  - exists (deferred w'). apply run_deferred_trace.
  - exists []. by rewrite app_nil_r.
Qed.

Section Loop.

Variables (root : string) (interval : Z) (pr : Callback CB (string * string)).

(** The loop of [TrackCollection], one cycle unfolded. *)
Lemma TrackLoop_step fuel url (w : World) :
  url <> "" ->
  TrackLoop RoundTrip url_ok (S fuel) root url interval pr w =
  match TrackFetch RoundTrip url_ok root url pr w with
  | (Ok (nextLink, deltaLink), w1) =>
      if negb (is_empty nextLink) then
        TrackLoop RoundTrip url_ok fuel root nextLink interval pr w1
      else if negb (is_empty deltaLink) then
        TrackLoop RoundTrip url_ok fuel root deltaLink interval pr (snd (Sleep interval w1))
      else (Ok tt, w1)
  | (Fatal msg, w1) => (Fatal msg, w1)
  | (Panic msg, w1) => (Panic msg, w1)
  | (OutOfFuel, w1) => (OutOfFuel, w1)
  end.
Proof.
  intros Hne. apply is_empty_false in Hne. simpl. rewrite Hne.
  unfold bind at 1.
  destruct (TrackFetch RoundTrip url_ok root url pr w) as [[[n d] | m | m |] w1]; try reflexivity.
  destruct (is_empty n); simpl; [| reflexivity].
  destruct (is_empty d); reflexivity.
Qed.

(** What a run of the loop adds to the world: its requests are all built
    the same way, it sleeps for [interval] only, it closes nothing, and
    every body it obtained is drained and still open when it stops. *)
Lemma TrackLoop_events fuel : forall url (w : World),
  exists new,
    let w' := snd (TrackLoop RoundTrip url_ok fuel root url interval pr w) in
    trace w' = trace w ++ new
    /\ Forall (fun req => exists u, req = TrackRequest (root +:+ u)) (requests new)
    /\ Forall (fun d => d = interval) (sleeps new)
    /\ closes new = []
    /\ bodies w' = bodies w ++
         replicate (length (processed new)) {| unread := ""; closed := false |}
    /\ (url <> "" -> fuel <> O -> url_ok (root +:+ url) = true ->
        exists tl, new = EvDo (TrackRequest (root +:+ url)) :: tl).
Proof.
  induction fuel as [| fuel IH]; intros url w.
  - exists []. simpl. destruct (is_empty url); simpl;
      rewrite !app_nil_r; repeat split; auto; intros; congruence.
  - destruct (is_empty url) eqn:E.
    { exists []. simpl. rewrite E. simpl.
      rewrite !app_nil_r. repeat split; auto.
      intros Hne. apply is_empty_true in E. congruence. }
    apply is_empty_false in E.
    rewrite (TrackLoop_step _ _ _ E), TrackFetch_eq. cbv zeta.
    destruct (url_ok (root +:+ url)) eqn:Eok.
    2: { exists []. simpl. rewrite !app_nil_r. repeat split; auto. intros; congruence. }
    destruct (RoundTrip (net w) _) as [n' [err | raw]].
    { exists [EvDo (TrackRequest (root +:+ url))]. simpl.
      rewrite app_nil_r. repeat split; eauto. }
    set (w1 := {| Verbose := Verbose w; net := n';
                  bodies := bodies w ++ [{| unread := ""; closed := false |}];
                  deferred := length (bodies w) :: deferred w;
                  stdout := _; trace := _; user := _ |}).
    assert (Hstop : forall r : Result unit,
              exists new, trace (snd (r, w1)) = trace w ++ new
              /\ Forall (fun req => exists u, req = TrackRequest (root +:+ u)) (requests new)
              /\ Forall (fun d => d = interval) (sleeps new)
              /\ closes new = []
              /\ bodies (snd (r, w1)) = bodies w ++
                   replicate (length (processed new)) {| unread := ""; closed := false |}
              /\ (url <> "" -> S fuel <> O -> true = true ->
                  exists tl, new = EvDo (TrackRequest (root +:+ url)) :: tl)).
    { intros r. exists [EvDo (TrackRequest (root +:+ url)); EvProcess (raw_body raw)].
      simpl. repeat split; eauto. }
    assert (Hgo : forall u pre (w2 : World),
              trace w2 = trace w1 ++ pre -> bodies w2 = bodies w1 ->
              requests pre = [] -> processed pre = [] -> closes pre = [] ->
              Forall (fun d => d = interval) (sleeps pre) ->
              exists new,
                let w' := snd (TrackLoop RoundTrip url_ok fuel root u interval pr w2) in
                trace w' = trace w ++ new
                /\ Forall (fun req => exists u, req = TrackRequest (root +:+ u)) (requests new)
                /\ Forall (fun d => d = interval) (sleeps new)
                /\ closes new = []
                /\ bodies w' = bodies w ++
                     replicate (length (processed new)) {| unread := ""; closed := false |}
                /\ (url <> "" -> S fuel <> O -> true = true ->
                    exists tl, new = EvDo (TrackRequest (root +:+ url)) :: tl)).
    { intros u pre w2 Ht Hb Hr Hp Hc Hs.
      destruct (IH u w2) as (new & Htr & Hreq & Hsl & Hcl & Hbo & _).
      exists ([EvDo (TrackRequest (root +:+ url)); EvProcess (raw_body raw)] ++ pre ++ new).
      cbv zeta in *. rewrite Htr, Ht. subst w1. simpl trace.
      rewrite !requests_app, !sleeps_app, !closes_app, !processed_app, Hr, Hp, Hc.
      split; [by rewrite <- !app_assoc |].
      split; [simpl; constructor; eauto |].
      split; [simpl; apply Forall_app; auto |].
      split; [by simpl |].
      split; [| by eauto].
      rewrite Hbo, Hb. simpl. by rewrite <- app_assoc.
    }
    destruct (snd (pr (user w) (raw_body raw))) as [[n d] | m | m |];
      [| apply (Hstop (Fatal m)) | apply (Hstop (Panic m)) | apply (Hstop OutOfFuel)].
    destruct (is_empty n); simpl.
    + destruct (is_empty d); simpl.
      * apply (Hstop (Ok tt)).
      * apply (Hgo d [EvSleep interval]); auto.
        simpl. by constructor.
    + apply (Hgo n []); auto. by rewrite app_nil_r.
Qed.

End Loop.

Lemma Sleep_trace d (w : World) : trace (snd (Sleep d w)) = trace w ++ [EvSleep d].
Proof. reflexivity. Qed.

(** C1 (amended). Every cycle of [TrackCollection], from the return of the
    callback with the pair (nextLink, deltaLink): with a next link the run
    goes on from that link at once, and when root + nextLink is a URL that
    parses the following event is the request for it, nothing in between;
    with no next link and a delta link the tracker sleeps for the interval,
    and when root + deltaLink parses the request for it follows the sleep;
    with neither the loop ends, and the [TrackCollection] call it belongs to
    returns without error and without another request or sleep. *)
Theorem TrackCollection_cycle_decision
    fuel root url interval (pr : Callback CB (string * string))
    (w w1 : World) nextLink deltaLink :
  url <> "" ->
  TrackFetch RoundTrip url_ok root url pr w = (Ok (nextLink, deltaLink), w1) ->
  let run := TrackLoop RoundTrip url_ok (S (S fuel)) root url interval pr w in
  (nextLink <> "" ->
     run = TrackLoop RoundTrip url_ok (S fuel) root nextLink interval pr w1
     /\ (url_ok (root +:+ nextLink) = true ->
         exists rest,
           trace (snd run) = trace w1 ++ EvDo (TrackRequest (root +:+ nextLink)) :: rest))
  /\ (nextLink = "" -> deltaLink <> "" ->
     run = TrackLoop RoundTrip url_ok (S fuel) root deltaLink interval pr
             (snd (Sleep interval w1))
     /\ (exists rest, trace (snd run) = trace w1 ++ EvSleep interval :: rest)
     /\ (url_ok (root +:+ deltaLink) = true ->
         exists rest,
           trace (snd run) = trace w1 ++
             EvSleep interval :: EvDo (TrackRequest (root +:+ deltaLink)) :: rest))
  /\ (nextLink = "" -> deltaLink = "" ->
     run = (Ok tt, w1)
     /\ forall F u0 (w0 : World),
          TrackLoop RoundTrip url_ok F root u0 interval pr (set_deferred [] w0) = run ->
          let final := TrackCollection RoundTrip url_ok F root u0 interval pr w0 in
          fst final = Ok tt
          /\ requests (trace (snd final)) = requests (trace w1)
          /\ sleeps (trace (snd final)) = sleeps (trace w1)).
Proof.
  intros Hurl Hfetch run.
  assert (Hrun : run =
    if negb (is_empty nextLink) then
      TrackLoop RoundTrip url_ok (S fuel) root nextLink interval pr w1
    else if negb (is_empty deltaLink) then
      TrackLoop RoundTrip url_ok (S fuel) root deltaLink interval pr (snd (Sleep interval w1))
    else (Ok tt, w1)).
  { subst run. rewrite TrackLoop_step by assumption. by rewrite Hfetch. }
  split; [| split].
  - intros Hn. pose proof Hn as Hn'. apply is_empty_false in Hn'.
    rewrite Hn' in Hrun. simpl in Hrun. split; [exact Hrun |].
    intros Hok.
    destruct (TrackLoop_events root interval pr (S fuel) nextLink w1)
      as (new & Htr & _ & _ & _ & _ & Hfirst).
    destruct (Hfirst Hn) as [tl ->]; [lia | assumption |].
    exists tl. rewrite Hrun. exact Htr.
  - intros -> Hd. pose proof Hd as Hd'. apply is_empty_false in Hd'.
    rewrite Hd' in Hrun. simpl in Hrun. split; [exact Hrun |].
    destruct (TrackLoop_events root interval pr (S fuel) deltaLink (snd (Sleep interval w1)))
      as (new & Htr & _ & _ & _ & _ & Hfirst).
    split.
    + exists new. rewrite Hrun. etransitivity; [exact Htr |].
      rewrite Sleep_trace. by rewrite <- app_assoc.
    + intros Hok. destruct (Hfirst Hd) as [tl ->]; [lia | assumption |].
      exists tl. rewrite Hrun. etransitivity; [exact Htr |].
      rewrite Sleep_trace. by rewrite <- app_assoc.
  - intros -> ->. simpl in Hrun. split; [exact Hrun |].
    intros F u0 w0 Hloop. unfold TrackCollection, func. cbv zeta.
    rewrite Hloop, Hrun. simpl.
    rewrite run_deferred_trace, requests_app, sleeps_app,
      requests_closes, sleeps_closes, !app_nil_r. auto.
Qed.

(** Blanking the delta token of every answer that also has a next-page
    token changes nothing in a run of the loop. *)
Lemma TrackLoop_drop_delta root interval (pr : Callback CB (string * string)) fuel :
  forall url (w : World),
    TrackLoop RoundTrip url_ok fuel root url interval (drop_delta pr) w
    = TrackLoop RoundTrip url_ok fuel root url interval pr w.
Proof.
  induction fuel as [| fuel IH]; intros url w; [reflexivity |].
  destruct (is_empty url) eqn:E; [simpl; by rewrite E |].
  apply is_empty_false in E.
  rewrite !TrackLoop_step, !TrackFetch_eq by assumption. cbv zeta.
  destruct (url_ok (root +:+ url)); [| reflexivity].
  destruct (RoundTrip (net w) _) as [n' [err | raw]]; [reflexivity |].
  unfold drop_delta at 1 2. simpl.
  destruct (snd (pr (user w) (raw_body raw))) as [[n d] | m | m |]; try reflexivity.
  destruct (is_empty n) eqn:En; simpl; rewrite ?En; simpl.
  - destruct (is_empty d); simpl; [reflexivity | apply IH].
  - apply IH.
Qed.

(** C2 (amended). When the callback returns both tokens non-empty, the
    run goes on from the next-page token at once, and when root + nextLink
    is a URL that parses the next event after the return of the callback is
    the request for it (no sleep); the delta token has no effect at all: a
    run of [TrackCollection] is the same as the run in which every such
    delta token is blanked. *)
Theorem TrackCollection_next_page_priority
    fuel root url interval (pr : Callback CB (string * string))
    (w w1 : World) nextLink deltaLink :
  url <> "" ->
  TrackFetch RoundTrip url_ok root url pr w = (Ok (nextLink, deltaLink), w1) ->
  nextLink <> "" -> deltaLink <> "" ->
  let run := TrackLoop RoundTrip url_ok (S (S fuel)) root url interval pr w in
  run = TrackLoop RoundTrip url_ok (S fuel) root nextLink interval pr w1
  /\ (url_ok (root +:+ nextLink) = true ->
      exists rest,
        trace (snd run) = trace w1 ++ EvDo (TrackRequest (root +:+ nextLink)) :: rest)
  /\ (forall F u0 (w0 : World),
        TrackCollection RoundTrip url_ok F root u0 interval (drop_delta pr) w0
        = TrackCollection RoundTrip url_ok F root u0 interval pr w0).
Proof.
  intros Hurl Hfetch Hn Hd run.
  assert (Hrun : run = TrackLoop RoundTrip url_ok (S fuel) root nextLink interval pr w1).
  { subst run. rewrite TrackLoop_step by assumption. rewrite Hfetch.
    apply is_empty_false in Hn. by rewrite Hn. }
  split; [exact Hrun |]. split.
  - intros Hok.
    destruct (TrackLoop_events root interval pr (S fuel) nextLink w1)
      as (new & Htr & _ & _ & _ & _ & Hfirst).
    destruct (Hfirst Hn) as [tl ->]; [lia | assumption |].
    exists tl. rewrite Hrun. exact Htr.
  - intros F u0 w0. unfold TrackCollection, func.
    by rewrite TrackLoop_drop_delta.
Qed.

Lemma TrackRequest_headers urlStr :
  Method (TrackRequest urlStr) = "GET"
  /\ URL (TrackRequest urlStr) = urlStr
  /\ ReqBody (TrackRequest urlStr) = None
  /\ track_headers (TrackRequest urlStr).
Proof. repeat split. Qed.

(** C5. Every request a call of [TrackCollection] issues is a GET without
    body that carries OData-Version: 4.0, Accept: application/json and
    Prefer: odata.track-changes, whatever link the cycle follows. *)
Theorem TrackCollection_request_headers
    fuel root url interval (pr : Callback CB (string * string)) (w : World) :
  exists new,
    trace (snd (TrackCollection RoundTrip url_ok fuel root url interval pr w)) = trace w ++ new
    /\ Forall (fun req => Method req = "GET" /\ ReqBody req = None /\ track_headers req)
         (requests new).
Proof.
  unfold TrackCollection.
  destruct (func_trace (TrackLoop RoundTrip url_ok fuel root url interval pr) w) as [ds Hds].
  destruct (TrackLoop_events root interval pr fuel url (set_deferred [] w))
    as (new & Htr & Hreq & _).
  exists (new ++ map EvClose ds). split.
  - rewrite Hds. cbv zeta in Htr. rewrite Htr. simpl. by rewrite app_assoc.
  - rewrite requests_app, requests_closes, app_nil_r.
    eapply Forall_impl; [exact Hreq |].
    intros req [u ->]. destruct (TrackRequest_headers (root +:+ u)) as (? & ? & ? & ?).
    auto.
Qed.

(** The loop of [IterateCollection], one page unfolded, in closed form. *)
Lemma IterateLoop_step root (pr : Callback CB (Z * string)) fuel url (w : World) :
  url <> "" ->
  IterateLoop RoundTrip url_ok (S fuel) root url pr w =
  let req := PlainRequest (root +:+ url) in
  if url_ok (root +:+ url) then
    match RoundTrip (net w) req with
    | (n', inl err) =>
        (Fatal err,
         {| Verbose := Verbose w; net := n'; bodies := bodies w;
            deferred := deferred w;
            stdout := stdout w ++ verbose_lines (Verbose w) ["GET " +:+ (root +:+ url)];
            trace := trace w ++ [EvDo req]; user := user w |})
    | (n', inr raw) =>
        let w1 :=
          {| Verbose := Verbose w; net := n';
             bodies := bodies w ++ [{| unread := ""; closed := false |}];
             deferred := length (bodies w) :: deferred w;
             stdout := stdout w ++
               verbose_lines (Verbose w) ["GET " +:+ (root +:+ url); raw_body raw];
             trace := trace w ++ [EvDo req; EvProcess (raw_body raw)];
             user := fst (pr (user w) (raw_body raw)) |} in
        match snd (pr (user w) (raw_body raw)) with
        | Ok r => IterateLoop RoundTrip url_ok fuel root (snd r) pr w1
        | Fatal msg => (Fatal msg, w1)
        | Panic msg => (Panic msg, w1)
        | OutOfFuel => (OutOfFuel, w1)
        end
    end
  else (Panic nil_dereference, w).
Proof.
  intros Hne. apply is_empty_false in Hne.
  cbn [IterateLoop]. rewrite Hne.
  unfold bind at 1. unfold ExecuteGETRequest, NewRequest.
  destruct (url_ok (root +:+ url)); [| reflexivity].
  unfold bind, ret, get_Verbose, when, Do, log_Fatal,
    DeferClose, ReadAll, call, Println, set_deferred, set_bodies, PlainRequest.
  destruct w as [v n bs ds out tr u]; simpl.
  destruct (RoundTrip n _) as [n' [err | raw]] eqn:E.
  - destruct v; simpl; rewrite E; simpl; rewrite ?app_nil_r; reflexivity.
  - destruct v; simpl; rewrite E; simpl;
      rewrite lookup_fresh_body; simpl; rewrite insert_fresh_body;
      destruct (pr u (raw_body raw)) as [s' [r | m | m |]]; simpl;
      rewrite <- ?app_assoc, ?app_nil_r; reflexivity.
Qed.

(** C10. With a pre-request hook that hands the request back as it got it
    and touches nothing else, [ExecuteGETRequestEx] is [ExecuteGETRequest]
    for every URL string: same result, same world afterwards.  For a URL
    that parses, the one request either of them sends is the GET for the
    URL without body and with the two standard headers; for one that does
    not, both panic on the nil request and send nothing. *)
Theorem ExecuteGETRequestEx_noop_hook
    urlStr (preReq : Request -> M Net CB Request) (w : World) :
  (forall req (w0 : World), preReq req w0 = (Ok req, w0)) ->
  ExecuteGETRequestEx RoundTrip url_ok urlStr preReq w
  = ExecuteGETRequest RoundTrip url_ok urlStr w
  /\ (url_ok urlStr = true ->
      trace (snd (ExecuteGETRequest RoundTrip url_ok urlStr w))
      = trace w ++ [EvDo (PlainRequest urlStr)])
  /\ (url_ok urlStr = false ->
      ExecuteGETRequest RoundTrip url_ok urlStr w = (Panic nil_dereference, w))
  /\ Method (PlainRequest urlStr) = "GET"
  /\ URL (PlainRequest urlStr) = urlStr
  /\ ReqBody (PlainRequest urlStr) = None.
Proof.
  intros Hnoop. split; [| split; [| split; [| by repeat split]]].
  - unfold ExecuteGETRequestEx, ExecuteGETRequest.
    destruct (NewRequest url_ok "GET" urlStr None); [| reflexivity].
    unfold bind at 1. by rewrite Hnoop.
  - intros Hok.
    unfold ExecuteGETRequest, NewRequest. rewrite Hok.
    unfold bind, ret, get_Verbose, when, Do, log_Fatal, Println, PlainRequest.
    destruct w as [v n bs ds out tr u].
    destruct v; simpl;
      destruct (RoundTrip n _) as [n' [err | raw]]; reflexivity.
  - intros Hno. unfold ExecuteGETRequest, NewRequest. by rewrite Hno.
Qed.

Lemma set_deferred_id (w : World) : set_deferred (deferred w) (set_deferred [] w) = w.
Proof. by destruct w. Qed.

(** [ValidateStatusCode] on the expected status: nothing happens. *)
Lemma ValidateStatusCode_match (resp : Response) statusCode logFmt (w : World) :
  StatusCode resp = statusCode ->
  ValidateStatusCode resp statusCode logFmt w = (Ok tt, w).
Proof.
  intros <-. unfold ValidateStatusCode, func. rewrite Z.eqb_refl. simpl.
  by rewrite set_deferred_id.
Qed.

(** C6 (what the code does on a mismatch). The body is drained and the
    process exits with the diagnostic made of the context string, the
    status line and the body text; the deferred [Close] never runs: the
    body is still not closed and no close is in the trace. *)
Theorem ValidateStatusCode_mismatch
    (resp : Response) statusCode logFmt (w : World) (b : BodyState) :
  StatusCode resp <> statusCode ->
  bodies w !! Body resp = Some b ->
  closed b = false ->
  exists w',
    ValidateStatusCode resp statusCode logFmt w
    = (Fatal (logFmt tt +:+ CRLF +:+ "Server responded with: " +:+ Status resp
              +:+ CRLF +:+ unread b), w')
    /\ bodies w' !! Body resp = Some {| unread := ""; closed := false |}
    /\ trace w' = trace w
    /\ deferred w' = [Body resp].
Proof.
  intros Hne Hb Hopen.
  unfold ValidateStatusCode, func.
  apply Z.eqb_neq in Hne. rewrite Hne. simpl.
  unfold bind, DeferClose, ReadAll, log_Fatal. simpl.
  rewrite Hb, Hopen. simpl.
  eexists. split; [reflexivity |]. simpl.
  split; [| auto].
  apply list_lookup_insert_eq. by eapply lookup_lt_Some.
Qed.

End Tracker.

(** ** Runs against injected responses *)

Section Replayed.

Context {CB : Type}.
Variable url_ok : string -> bool.

Local Abbreviation World := (World Replayed CB).

(** C3 (amended). Against the three injected responses (next link p2; no
    next link and delta link d1; neither), and with a root under which the
    start link, p2 and d1 give URLs that parse, [TrackCollection] returns
    after exactly these events: request for the start link, callback on
    body 1, request for root + p2, callback on body 2, one sleep of the
    interval, request for root + d1, callback on body 3, and the three
    deferred closes. *)
Theorem TrackCollection_three_responses
    root url interval (pr : Callback CB (string * string)) (w : World)
    c1 st1 b1 c2 st2 b2 c3 st3 b3 d0 s1 s2 s3 fuel :
  url <> "" ->
  url_ok (root +:+ url) = true ->
  url_ok (root +:+ "p2") = true ->
  url_ok (root +:+ "d1") = true ->
  net w = [inr (mkRaw c1 st1 b1); inr (mkRaw c2 st2 b2); inr (mkRaw c3 st3 b3)] ->
  pr (user w) b1 = (s1, Ok ("p2", d0)) ->
  pr s1 b2 = (s2, Ok ("", "d1")) ->
  pr s2 b3 = (s3, Ok ("", "")) ->
  (3 <= fuel)%nat ->
  exists w',
    TrackCollection Replay url_ok fuel root url interval pr w = (Ok tt, w')
    /\ trace w' = trace w ++
         [EvDo (TrackRequest (root +:+ url)); EvProcess b1;
          EvDo (TrackRequest (root +:+ "p2")); EvProcess b2;
          EvSleep interval;
          EvDo (TrackRequest (root +:+ "d1")); EvProcess b3;
          EvClose (2 + length (bodies w)); EvClose (1 + length (bodies w));
          EvClose (length (bodies w))]
    /\ net w' = [] /\ user w' = s3.
Proof.
  intros Hurl Hok0 Hok1 Hok2 Hnet H1 H2 H3 Hfuel.
  destruct fuel as [| [| [| fuel]]]; try lia.
  destruct w as [v n bs ds out tr u]. simpl in Hnet, H1. subst n.
  unfold TrackCollection, func.
  rewrite TrackLoop_step, TrackFetch_eq by assumption. rewrite Hok0.
  cbn [set_deferred net user Verbose bodies deferred stdout trace Replay raw_body].
  rewrite H1. cbn [fst snd is_empty negb].
  rewrite TrackLoop_step, TrackFetch_eq by discriminate. rewrite Hok1.
  cbn [set_deferred net user Verbose bodies deferred stdout trace Replay raw_body].
  rewrite H2. cbn [fst snd is_empty negb].
  rewrite TrackLoop_step, TrackFetch_eq by discriminate. rewrite Hok2.
  cbn [Sleep emit set_deferred net user Verbose bodies deferred stdout trace Replay
       raw_body fst snd].
  rewrite H3. cbn [fst snd is_empty negb].
  eexists. split; [reflexivity |].
  cbn [set_deferred net user Verbose bodies deferred stdout trace].
  rewrite run_deferred_trace.
  rewrite run_deferred_net, run_deferred_user.
  cbn [net user trace map].
  rewrite !length_app. cbn [length].
  rewrite <- !app_assoc. cbn [app].
  replace (length bs + 1 + 1)%nat with (2 + length bs)%nat by lia.
  replace (length bs + 1)%nat with (1 + length bs)%nat by lia.
  auto.
Qed.

Lemma callback_yields_length {R} (pr : Callback CB R) : forall bs outs s s',
  callback_yields pr s bs outs s' -> length bs = length outs.
Proof.
  induction bs as [| b bs IH]; intros [| o outs] s s' H; simpl in *; try tauto.
  destruct H as (s1 & _ & H). f_equal. eauto.
Qed.

Lemma cycle_events_requests mk root : forall links bs,
  length links = length bs ->
  requests (cycle_events mk root links bs) = map (fun l => mk (root +:+ l)) links.
Proof.
  induction links as [| l links IH]; intros [| b bs] H; simpl in *; try congruence.
  f_equal. apply IH. congruence.
Qed.

Lemma cycle_events_processed mk root : forall links bs,
  length links = length bs ->
  processed (cycle_events mk root links bs) = bs.
Proof.
  induction links as [| l links IH]; intros [| b bs] H; simpl in *; try congruence.
  f_equal. apply IH. congruence.
Qed.

Lemma cycle_events_sleeps mk root : forall links bs,
  sleeps (cycle_events mk root links bs) = [].
Proof.
  induction links as [| l links IH]; intros [| b bs]; simpl in *; auto.
Qed.

(** The loop of [IterateCollection] against injected responses of which
    only the last makes the callback return an empty link. *)
Lemma IterateLoop_replay root (pr : Callback CB (Z * string)) :
  forall outs resps url (w : World) last s' fuel,
    url <> "" ->
    Forall (fun l => url_ok (root +:+ l) = true) (url :: map snd outs) ->
    net w = map inr resps ->
    callback_yields pr (user w) (map raw_body resps) (outs ++ [last]) s' ->
    Forall (fun o => snd o <> "") outs ->
    snd last = "" ->
    (length resps <= fuel)%nat ->
    exists w',
      IterateLoop Replay url_ok fuel root url pr w = (Ok tt, w')
      /\ trace w' = trace w ++
           cycle_events PlainRequest root (url :: map snd outs) (map raw_body resps)
      /\ net w' = [] /\ user w' = s'
      /\ bodies w' = bodies w ++
           replicate (length resps) {| unread := ""; closed := false |}
      /\ deferred w' = rev (seq (length (bodies w)) (length resps)) ++ deferred w.
Proof.
  induction outs as [| o outs IH];
    intros resps url w last s' fuel Hurl Hoks Hnet Hcb Hall Hlast Hfuel;
    cbn [map] in Hoks; apply Forall_cons in Hoks as [Hok Hoks].
  - destruct resps as [| r [| r2 resps]]; simpl in Hcb; try tauto;
      [| destruct Hcb as (? & _ & []) ].
    destruct Hcb as (s1 & Hpr & ->).
    destruct fuel as [| fuel]; [simpl in Hfuel; lia |].
    rewrite IterateLoop_step by assumption. cbv zeta. rewrite Hok.
    rewrite Hnet. cbn [map Replay]. rewrite Hpr. cbn [fst snd].
    rewrite Hlast.
    eexists. split; [destruct fuel; reflexivity |].
    cbn [trace net user bodies deferred cycle_events map length replicate seq rev app].
    auto.
  - destruct resps as [| r resps]; simpl in Hcb; [tauto |].
    destruct Hcb as (s1 & Hpr & Hcb).
    destruct fuel as [| fuel]; [simpl in Hfuel; lia |].
    apply Forall_cons in Hall as [Ho Hall].
    rewrite IterateLoop_step by assumption. cbv zeta. rewrite Hok.
    rewrite Hnet. cbn [map Replay]. rewrite Hpr. cbn [fst snd].
    match goal with
    | |- context [IterateLoop _ _ _ _ _ _ ?w1] =>
        destruct (IH resps (snd o) w1 last s' fuel) as (w' & Hrun & Htr & Hn & Hu & Hb & Hd);
          [assumption | exact Hoks | reflexivity | exact Hcb | assumption | assumption
          | simpl in Hfuel; lia |]
    end.
    exists w'. split; [exact Hrun |].
    cbn [trace bodies deferred] in Htr, Hb, Hd.
    split; [rewrite Htr; cbn [cycle_events map]; by rewrite <- app_assoc |].
    split; [assumption |]. split; [assumption |].
    split.
    + rewrite Hb. cbn [length replicate]. by rewrite <- app_assoc.
    + rewrite Hd, length_app. cbn [length seq rev].
      rewrite <- app_assoc. cbn [app]. do 3 f_equal. lia.
Qed.

(** C4 (amended). Against a finite sequence of injected responses for
    which the callback returns a non-empty link on every response but the
    last and an empty one on the last, and with a start link and returned
    links that give URLs that parse under the root, [IterateCollection]
    returns; the callback is invoked once on each response body, in order;
    the first request goes to root + the start link and request n + 1 to
    root + the link returned by invocation n; no response is left
    unrequested. *)
Theorem IterateCollection_pagination_complete
    root url (pr : Callback CB (Z * string)) (w : World)
    (resps : list RawResponse) (outs : list (Z * string)) (last : Z * string)
    s' fuel :
  url <> "" ->
  Forall (fun link => url_ok (root +:+ link) = true) (url :: map snd outs) ->
  net w = map inr resps ->
  callback_yields pr (user w) (map raw_body resps) (outs ++ [last]) s' ->
  Forall (fun o => snd o <> "") outs ->
  snd last = "" ->
  (length resps <= fuel)%nat ->
  exists w' new,
    IterateCollection Replay url_ok fuel root url pr w = (Ok tt, w')
    /\ trace w' = trace w ++ new
    /\ new = cycle_events PlainRequest root (url :: map snd outs) (map raw_body resps)
             ++ map EvClose (rev (seq (length (bodies w)) (length resps)))
    /\ processed new = map raw_body resps
    /\ requests new = map (fun link => PlainRequest (root +:+ link)) (url :: map snd outs)
    /\ sleeps new = []
    /\ net w' = [] /\ user w' = s'.
Proof.
  intros Hurl Hoks Hnet Hcb Hall Hlast Hfuel.
  destruct (IterateLoop_replay root pr outs resps url (set_deferred [] w) last s' fuel)
    as (w1 & Hrun & Htr & Hn & Hu & Hb & Hd); auto.
  pose proof (callback_yields_length _ _ _ _ _ Hcb) as Hlen.
  rewrite length_map, length_app in Hlen. simpl in Hlen.
  assert (Hlen' : length (url :: map snd outs) = length (map raw_body resps)).
  { simpl. rewrite !length_map. lia. }
  unfold IterateCollection, func. rewrite Hrun.
  eexists. eexists. split; [reflexivity |].
  cbn [trace net user set_deferred].
  rewrite run_deferred_trace, run_deferred_net, run_deferred_user, Htr, Hd.
  cbn [trace set_deferred bodies deferred]. rewrite app_nil_r.
  split; [by rewrite <- app_assoc |].
  split; [reflexivity |].
  rewrite processed_app, requests_app, sleeps_app,
    processed_closes, requests_closes, sleeps_closes, !app_nil_r.
  rewrite cycle_events_processed, cycle_events_requests, cycle_events_sleeps by assumption.
  auto.
Qed.

End Replayed.

Lemma open_bodies_app (bs1 bs2 : list BodyState) :
  open_bodies (bs1 ++ bs2) = (open_bodies bs1 + open_bodies bs2)%nat.
Proof. unfold open_bodies. by rewrite filter_app, length_app. Qed.

Lemma open_bodies_replicate (k : nat) (s : string) :
  open_bodies (replicate k {| unread := s; closed := false |}) = k.
Proof.
  induction k as [| k IH]; [reflexivity |].
  change (replicate (S k) {| unread := s; closed := false |})
    with ([{| unread := s; closed := false |}] ++ replicate k {| unread := s; closed := false |}).
  rewrite open_bodies_app, IH. reflexivity.
Qed.

(** A loop of [TrackCollection] closes nothing: when it stops, for whatever
    reason, every body it obtained is drained and still open. *)
Lemma TrackLoop_bodies_stay_open {Net CB : Type}
    (RoundTrip : Net -> Request -> Net * (string + RawResponse))
    (url_ok : string -> bool)
    fuel root url interval (pr : Callback CB (string * string)) (w : World Net CB) :
  exists new,
    let w' := snd (TrackLoop RoundTrip url_ok fuel root url interval pr w) in
    trace w' = trace w ++ new
    /\ closes new = []
    /\ open_bodies (bodies w') = (open_bodies (bodies w) + length (processed new))%nat.
Proof.
  destruct (TrackLoop_events RoundTrip url_ok root interval pr fuel url w)
    as (new & Htr & _ & _ & Hcl & Hb & _).
  exists new. cbv zeta in *. rewrite Hb, open_bodies_app, open_bodies_replicate. auto.
Qed.

(** When a call of [TrackCollection] ends in [log.Fatal] (transport error,
    or a callback that cannot decode the body), no [Close] has run at all. *)
Lemma TrackCollection_fatal_no_close {Net CB : Type}
    (RoundTrip : Net -> Request -> Net * (string + RawResponse))
    (url_ok : string -> bool)
    fuel root url interval (pr : Callback CB (string * string)) (w : World Net CB) msg :
  fst (TrackCollection RoundTrip url_ok fuel root url interval pr w) = Fatal msg ->
  exists new,
    trace (snd (TrackCollection RoundTrip url_ok fuel root url interval pr w)) = trace w ++ new
    /\ closes new = [].
Proof.
  unfold TrackCollection, func.
  destruct (TrackLoop_events RoundTrip url_ok root interval pr fuel url (set_deferred [] w))
    as (new & Htr & _ & _ & Hcl & _).
  cbv zeta in Htr.
  destruct (TrackLoop RoundTrip url_ok fuel root url interval pr (set_deferred [] w))
    as [[[] | m | m |] w1]; simpl; try discriminate.
  intros _. exists new. auto.
Qed.

Lemma TrackLoop_leak (url_ok : string -> bool) root interval :
  url_ok (root +:+ "delta") = true ->
  forall N url (w : World Replayed unit),
  url <> "" ->
  url_ok (root +:+ url) = true ->
  net w = replicate N (inr answer_more) ++ [inr answer_done] ->
  exists w',
    TrackLoop Replay url_ok (S N) root url interval delta_until_done w = (Ok tt, w')
    /\ bodies w' = bodies w ++ replicate (S N) {| unread := ""; closed := false |}
    /\ closes (trace w') = closes (trace w)
    /\ length (processed (trace w')) = (length (processed (trace w)) + S N)%nat
    /\ deferred w' = rev (seq (length (bodies w)) (S N)) ++ deferred w.
Proof.
  intros Hdelta.
  induction N as [| N IH]; intros url w Hurl Hok Hnet.
  - rewrite TrackLoop_step, TrackFetch_eq by assumption. cbv zeta. rewrite Hok.
    rewrite Hnet. cbn [replicate app Replay]. simpl.
    eexists. split; [reflexivity |]. simpl.
    rewrite closes_app, processed_app, length_app, app_nil_r. auto.
  - rewrite TrackLoop_step, TrackFetch_eq by assumption. cbv zeta. rewrite Hok.
    rewrite Hnet. cbn -[TrackLoop].
    match goal with
    | |- context [TrackLoop _ _ _ _ _ _ _ ?w1] =>
        destruct (IH "delta" w1) as (w' & Hrun & Hb & Hc & Hp & Hd);
          [discriminate | assumption | reflexivity |]
    end.
    exists w'. split; [exact Hrun |].
    cbn [bodies trace deferred] in Hb, Hc, Hp, Hd.
    rewrite Hb, Hc, Hp, Hd, !closes_app, !processed_app, !length_app.
    cbn [closes processed omap length replicate].
    rewrite <- !app_assoc, !app_nil_r.
    split; [reflexivity |]. split; [reflexivity |]. split; [simpl; lia |].
    cbn [seq rev length]. rewrite <- !app_assoc. cbn [app].
    replace (length (bodies w) + 1)%nat with (S (length (bodies w))) by lia.
    reflexivity.
Qed.

(** C7 (what the code does). For every [N], a run of the tracker over
    [N] + 1 cycles (under a root where the two links used give URLs that
    parse) has all [N] + 1 response bodies open at once when its loop
    stops: each [Close] is deferred to the return of [TrackCollection], so in
    the trace of the call all closes come after the last callback. *)
Theorem TrackLoop_open_bodies_unbounded (url_ok : string -> bool) (N : nat) :
  url_ok (demo_root +:+ "MessageLogEntries") = true ->
  url_ok (demo_root +:+ "delta") = true ->
  let loop := TrackLoop Replay url_ok (S N) demo_root "MessageLogEntries" (5 * Second)
                delta_until_done (leak_world N) in
  let call := TrackCollection Replay url_ok (S N) demo_root "MessageLogEntries" (5 * Second)
                delta_until_done (leak_world N) in
  fst loop = Ok tt
  /\ open_bodies (bodies (snd loop)) = S N
  /\ closes (trace (snd loop)) = []
  /\ length (processed (trace (snd loop))) = S N
  /\ fst call = Ok tt
  /\ trace (snd call) = trace (snd loop) ++ map EvClose (rev (seq 0 (S N))).
Proof.
  intros Hstart Hdelta.
  destruct (TrackLoop_leak url_ok demo_root (5 * Second) Hdelta N "MessageLogEntries"
              (leak_world N))
    as (w' & Hrun & Hb & Hc & Hp & Hd); [discriminate | assumption | reflexivity |].
  cbv zeta. unfold TrackCollection, func.
  change (set_deferred [] (leak_world N)) with (leak_world N).
  rewrite Hrun. cbn [fst snd trace set_deferred].
  rewrite run_deferred_trace, Hb, Hc, Hp, Hd. cbn [bodies deferred length].
  rewrite app_nil_l, app_nil_r, open_bodies_replicate.
  repeat split; reflexivity.
Qed.

(** ** main.go: the polling interval *)

Example Atoi_examples :
  Atoi "12" = (12, false) /\ Atoi "+7" = (7, false) /\ Atoi "-3" = (-3, false)
  /\ Atoi "" = (0, true) /\ Atoi "abc" = (0, true) /\ Atoi "-" = (0, true)
  /\ Atoi "1_0" = (0, true) /\ Atoi "5s" = (0, true)
  /\ Atoi "-9223372036854775808" = (MinInt64, false)
  /\ Atoi "9223372036854775808" = (MaxInt64, true)
  /\ Atoi "-9223372036854775809" = (MinInt64, true)
  /\ Atoi "99999999999999999999x" = (MaxInt64, true)
  /\ Atoi "-99999999999999999999x" = (MinInt64, true)
  /\ Atoi "00000000000000000000x" = (0, true).
Proof. by vm_compute. Qed.

Example main_interval_examples :
  main_interval (interval_env "30") = 30
  /\ main_duration (interval_env "30") = 30 * Second
  /\ main_interval (interval_env "0") = 5
  /\ main_interval (interval_env "-2") = 5
  /\ main_interval (interval_env "soon") = 5
  /\ main_interval ∅ = 5.
Proof. by vm_compute. Qed.

Lemma Getenv_interval_env value : Getenv (interval_env value) "TM1_TRACKER_INTERVAL" = value.
Proof. unfold Getenv, interval_env. by rewrite lookup_singleton_eq. Qed.

Lemma parse_digits_all_digits s : forall acc,
  all_digits s = false -> parse_digits acc s = None.
Proof.
  induction s as [| c s IH]; intros acc H; simpl in *; [discriminate |].
  destruct (digit_of c); auto.
Qed.

(** Without the variable the interval is 5 seconds. *)
Lemma main_interval_absent env :
  env !! "TM1_TRACKER_INTERVAL" = None ->
  main_interval env = 5 /\ main_duration env = 5 * Second.
Proof.
  intros H. unfold main_duration, main_interval, Getenv. rewrite H. by vm_compute.
Qed.

Lemma digit_of_range c d : digit_of c = Some d -> 0 <= d <= 9.
Proof.
  unfold digit_of. intros H.
  destruct (48 <=? Z.of_nat (nat_of_ascii c)) eqn:E1; [| discriminate].
  destruct (Z.of_nat (nat_of_ascii c) <=? 57) eqn:E2; [| discriminate].
  simpl in H. injection H as <-. lia.
Qed.

Lemma substring_0_0 s : substring 0 0 s = "".
Proof. by destruct s. Qed.

(** A byte that is no digit among the first 20 is reached before the value
    can overflow: the scan ends in a syntax error. *)
Lemma ParseUint_loop_syntax : forall k s n,
  all_digits (substring 0 k s) = false ->
  0 <= n ->
  (n + 1) * 10 ^ Z.of_nat k <= 10 ^ 20 ->
  ParseUint_loop n s = (0, Some ErrSyntax).
Proof.
  induction k as [| k IH]; intros s n H Hn Hb.
  - rewrite substring_0_0 in H. discriminate.
  - destruct s as [| c s]; [discriminate |].
    cbn [substring all_digits] in H. cbn [ParseUint_loop].
    destruct (digit_of c) as [d |] eqn:Ed; [| reflexivity].
    apply digit_of_range in Ed.
    rewrite Nat2Z.inj_succ, Z.pow_succ_r in Hb by lia.
    assert (HP : 0 < 10 ^ Z.of_nat k) by (apply Z.pow_pos_nonneg; lia).
    assert (Hk : 10 <= 10 ^ Z.of_nat k).
    { destruct k as [| k]; [rewrite substring_0_0 in H; discriminate |].
      rewrite Nat2Z.inj_succ, Z.pow_succ_r by lia.
      assert (0 < 10 ^ Z.of_nat k) by (apply Z.pow_pos_nonneg; lia). lia. }
    assert (Hn18 : n + 1 <= 10 ^ 18).
    { change (10 ^ 20) with (100 * 10 ^ 18) in Hb. nia. }
    change (10 ^ 18) with 1000000000000000000 in Hn18.
    unfold MaxUint64. change (18446744073709551615 / 10 + 1) with 1844674407370955162.
    destruct (1844674407370955162 <=? n) eqn:E1; [apply Z.leb_le in E1; lia |].
    destruct (18446744073709551615 <? 10 * n + d) eqn:E2; [apply Z.ltb_lt in E2; lia |].
    apply (IH s (10 * n + d)); [assumption | lia | nia].
Qed.

(** A value that does not start with a sign and has a byte that is no digit
    among its first 20 gives 5 seconds. *)
Lemma main_interval_not_numeric env c s :
  env !! "TM1_TRACKER_INTERVAL" = Some (String c s) ->
  Ascii.eqb c "+" = false -> Ascii.eqb c "-" = false ->
  all_digits (substring 0 20 (String c s)) = false ->
  main_interval env = 5 /\ main_duration env = 5 * Second.
Proof.
  intros H Hp Hm Hd. unfold main_duration, main_interval, Getenv. rewrite H.
  cbn [from_option id]. unfold Atoi. rewrite Hp, Hm.
  unfold ParseUint. cbn [is_empty].
  rewrite (ParseUint_loop_syntax 20) by (try assumption; try lia; by vm_compute).
  by vm_compute.
Qed.

(** A value that [Atoi] accepts and that lies between 1 and 9223372036 is
    the interval in seconds. *)
Lemma main_interval_in_range env s n :
  env !! "TM1_TRACKER_INTERVAL" = Some s ->
  Atoi s = (n, false) ->
  1 <= n <= 9223372036 ->
  main_interval env = n /\ main_duration env = n * Second.
Proof.
  intros H Ha Hn. unfold main_duration, main_interval, Getenv. rewrite H. cbn [from_option id].
  rewrite Ha. cbn [fst].
  destruct (n <? 1) eqn:E; [apply Z.ltb_lt in E; lia |].
  split; [reflexivity |].
  unfold wrap64, Second.
  rewrite Z.mod_small by lia. lia.
Qed.

(** The interval [TrackCollection] is called with is the only duration it
    ever sleeps for. *)
Lemma TrackCollection_sleeps_interval {Net CB : Type}
    (RoundTrip : Net -> Request -> Net * (string + RawResponse))
    (url_ok : string -> bool)
    fuel root url interval (pr : Callback CB (string * string)) (w : World Net CB) :
  exists new,
    trace (snd (TrackCollection RoundTrip url_ok fuel root url interval pr w)) = trace w ++ new
    /\ Forall (fun d => d = interval) (sleeps new).
Proof.
  unfold TrackCollection.
  destruct (func_trace (TrackLoop RoundTrip url_ok fuel root url interval pr) w) as [ds Hds].
  destruct (TrackLoop_events RoundTrip url_ok root interval pr fuel url (set_deferred [] w))
    as (new & Htr & _ & Hsl & _).
  exists (new ++ map EvClose ds). split.
  - rewrite Hds. cbv zeta in Htr. rewrite Htr. simpl. by rewrite app_assoc.
  - by rewrite sleeps_app, sleeps_closes, app_nil_r.
Qed.

(** C8 (what the code does). For the value 99999999999999999999, which
    [Atoi] rejects as out of range, the interval is neither the default nor
    the configured number: the variable holds the largest [int], and the
    duration handed to [TrackCollection] wraps around to minus one second. *)
Theorem main_interval_out_of_range :
  Atoi "99999999999999999999" = (MaxInt64, true)
  /\ main_interval (interval_env "99999999999999999999") = MaxInt64
  /\ main_duration (interval_env "99999999999999999999") = - Second
  /\ main_duration (interval_env "99999999999999999999") <> 5 * Second.
Proof.
  unfold main_duration, main_interval. rewrite Getenv_interval_env.
  by vm_compute.
Qed.

(** A number that [Atoi] accepts but whose seconds do not fit a
    [time.Duration] wraps around as well. *)
Example main_duration_overflow :
  Atoi "9223372037" = (9223372037, false)
  /\ main_duration (interval_env "9223372037") = -9223372036709551616.
Proof.
  unfold main_duration, main_interval. rewrite Getenv_interval_env.
  by vm_compute.
Qed.

(** ** main.go: the version gate *)

Example main_version_gate_examples :
  main_version_gate "10.2.20500.123" = Ok tt
  /\ main_version_gate "11.8.01900.10" = Ok tt
  /\ main_version_gate "9.5.2000000" = Ok tt
  /\ main_version_gate "10.2.2" = Panic "runtime error: slice bounds out of range"
  /\ main_version_gate "" = Panic "runtime error: slice bounds out of range".
Proof. by vm_compute. Qed.

Lemma byte_at_S c s j : byte_at (String c s) (S j) = byte_at s j.
Proof. reflexivity. Qed.

(** On strings of one length, [string_ltb] is the lexicographic order on
    bytes: the strings agree up to some index where the left byte is
    smaller. *)
Lemma string_ltb_lex : forall a b,
  String.length a = String.length b ->
  (string_ltb a b = true <-> lex_lt_first (String.length a) a b).
Proof.
  induction a as [| x a IH]; intros [| y b] Hlen; simpl in Hlen; try discriminate.
  - split; [discriminate |]. intros (i & Hi & _). simpl in Hi. lia.
  - injection Hlen as Hlen. specialize (IH b Hlen).
    cbn [string_ltb String.length].
    destruct (nat_of_ascii x <? nat_of_ascii y)%nat eqn:Exy.
    { apply Nat.ltb_lt in Exy. split; [| reflexivity]. intros _.
      exists 0%nat. split; [lia |]. split; [intros j Hj; lia | exact Exy]. }
    apply Nat.ltb_ge in Exy.
    destruct (nat_of_ascii y <? nat_of_ascii x)%nat eqn:Eyx.
    { apply Nat.ltb_lt in Eyx. split; [discriminate |].
      intros (i & Hi & Hpre & Hlt). destruct i as [| i].
      - unfold byte_at in Hlt. simpl in Hlt. lia.
      - specialize (Hpre 0%nat ltac:(lia)). unfold byte_at in Hpre. simpl in Hpre. lia. }
    apply Nat.ltb_ge in Eyx.
    rewrite IH. split.
    + intros (i & Hi & Hpre & Hlt). exists (S i). split; [lia |].
      split; [| exact Hlt].
      intros [| j] Hj; [unfold byte_at; simpl; lia |].
      rewrite !byte_at_S. apply Hpre. lia.
    + intros (i & Hi & Hpre & Hlt). destruct i as [| i].
      * unfold byte_at in Hlt. simpl in Hlt. lia.
      * exists i. split; [lia |]. split; [| exact Hlt].
        intros j Hj. specialize (Hpre (S j) ltac:(lia)). exact Hpre.
Qed.

Lemma substring_0_length : forall n s,
  (n <= String.length s)%nat -> String.length (substring 0 n s) = n.
Proof.
  induction n as [| n IH]; intros [| c s] H; simpl in *; try lia; try reflexivity.
  f_equal. apply IH. lia.
Qed.

Lemma byte_at_substring_0 n s j :
  (j < n)%nat -> byte_at (substring 0 n s) j = byte_at s j.
Proof.
  intros H. unfold byte_at. rewrite substring_correct1 by assumption.
  by rewrite Nat.add_0_r.
Qed.

Lemma lex_lt_first_ext k a a' b :
  (forall j, (j < k)%nat -> byte_at a j = byte_at a' j) ->
  lex_lt_first k a b -> lex_lt_first k a' b.
Proof.
  intros Hext (i & Hi & Hpre & Hlt). exists i. split; [assumption |]. split.
  - intros j Hj. rewrite <- Hext by lia. auto.
  - rewrite <- Hext by assumption. assumption.
Qed.

(** C9. The version gate looks at the first 10 bytes of the body only and
    compares them byte by byte with 10.2.20500: a body of at least 10 bytes
    is refused exactly when those bytes come first in that order; a body of
    fewer than 10 bytes, the empty one included, makes the slice expression
    panic, and only such a body does. *)
Theorem main_version_gate_first_10_bytes (version : string) :
  ((String.length version < 10)%nat ->
     main_version_gate version = Panic "runtime error: slice bounds out of range")
  /\ ((10 <= String.length version)%nat ->
        (lex_lt_first 10 version "10.2.20500" ->
           exists msg, main_version_gate version = Fatal msg)
        /\ (~ lex_lt_first 10 version "10.2.20500" ->
             main_version_gate version = Ok tt)).
Proof.
  unfold main_version_gate. split.
  - intros H. apply Nat.ltb_lt in H. by rewrite H.
  - intros H. pose proof H as H'. apply Nat.ltb_ge in H'. rewrite H'.
    pose proof (string_ltb_lex (substring 0 10 version) "10.2.20500") as Hlex.
    rewrite substring_0_length in Hlex by assumption.
    specialize (Hlex eq_refl).
    assert (Hsame : lex_lt_first 10 (substring 0 10 version) "10.2.20500"
                    <-> lex_lt_first 10 version "10.2.20500").
    { split; apply lex_lt_first_ext; intros j Hj;
        [| symmetry]; by apply byte_at_substring_0. }
    destruct (string_ltb (substring 0 10 version) "10.2.20500").
    + split; [eauto |]. intros Hn. exfalso. apply Hn, Hsame, Hlex. reflexivity.
    + split; [| reflexivity]. intros Hl. apply Hsame, Hlex in Hl. discriminate.
Qed.

(** ** Concrete instances *)

Lemma TrackCollection_cycle_decision_witness :
  let run s := TrackLoop Replay escapes_ok 2 demo_root "MessageLogEntries" (5 * Second)
                 demo_pr (demo_world three_responses s) in
  let w1 s := snd (TrackFetch Replay escapes_ok demo_root "MessageLogEntries" demo_pr
                     (demo_world three_responses s)) in
  (exists rest,
     trace (snd (run 0%nat))
     = trace (w1 0%nat) ++ EvDo (TrackRequest (demo_root +:+ "p2")) :: rest)
  /\ (exists rest,
        trace (snd (run 1%nat))
        = trace (w1 1%nat) ++
            EvSleep (5 * Second) :: EvDo (TrackRequest (demo_root +:+ "d1")) :: rest)
  /\ run 2%nat = (Ok tt, w1 2%nat).
Proof.
  intros run w1. split; [| split].
  - pose proof (TrackCollection_cycle_decision Replay escapes_ok 0 demo_root
                  "MessageLogEntries" (5 * Second) demo_pr
                  (demo_world three_responses 0%nat) (w1 0%nat) "p2" "d0") as H.
    cbv zeta in H.
    destruct H as (Hnext & _ & _); [discriminate | vm_compute; reflexivity |].
    destruct Hnext as (_ & Hreq); [discriminate |].
    apply Hreq. reflexivity.
  - pose proof (TrackCollection_cycle_decision Replay escapes_ok 0 demo_root
                  "MessageLogEntries" (5 * Second) demo_pr
                  (demo_world three_responses 1%nat) (w1 1%nat) "" "d1") as H.
    cbv zeta in H.
    destruct H as (_ & Hdelta & _); [discriminate | vm_compute; reflexivity |].
    destruct Hdelta as (_ & _ & Hreq); [reflexivity | discriminate |].
    apply Hreq. reflexivity.
  - pose proof (TrackCollection_cycle_decision Replay escapes_ok 0 demo_root
                  "MessageLogEntries" (5 * Second) demo_pr
                  (demo_world three_responses 2%nat) (w1 2%nat) "" "") as H.
    cbv zeta in H.
    destruct H as (_ & _ & Hstop); [discriminate | vm_compute; reflexivity |].
    destruct Hstop as (Hrun & _); [reflexivity | reflexivity |].
    exact Hrun.
Defined.

(** C1, counterexample.  The callback answers the first response with the
    next link "%zz", which is not empty, and [http.NewRequest] refuses the
    URL [demo_root +:+ "%zz"]: the loop dereferences the nil request and
    panics, and no request against base + nextLink is ever issued.  The
    same with "%zz" as the delta link and no next link: the tracker
    sleeps, then panics, and no request against base + deltaLink follows
    the sleep. *)
Lemma TrackCollection_cycle_decision_counterexample :
  let w := demo_world three_responses 0%nat in
  let next := TrackLoop Replay escapes_ok 2 demo_root "MessageLogEntries" (5 * Second)
                bad_link_pr w in
  let delta := TrackLoop Replay escapes_ok 2 demo_root "MessageLogEntries" (5 * Second)
                 bad_delta_pr w in
  (fst (TrackFetch Replay escapes_ok demo_root "MessageLogEntries" bad_link_pr w)
   = Ok ("%zz", "d0")
   /\ "%zz" <> ""
   /\ fst next = Panic nil_dereference
   /\ trace (snd next)
      = [EvDo (TrackRequest (demo_root +:+ "MessageLogEntries")); EvProcess "page1"])
  /\ (fst (TrackFetch Replay escapes_ok demo_root "MessageLogEntries" bad_delta_pr w)
      = Ok ("", "%zz")
      /\ fst delta = Panic nil_dereference
      /\ trace (snd delta)
         = [EvDo (TrackRequest (demo_root +:+ "MessageLogEntries")); EvProcess "page1";
            EvSleep (5 * Second)]).
Proof.
  cbv zeta. split.
  - split; [vm_compute; reflexivity |].
    split; [discriminate |].
    split; vm_compute; reflexivity.
  - split; [vm_compute; reflexivity |].
    split; vm_compute; reflexivity.
Qed.

Lemma TrackCollection_next_page_priority_witness :
  let w := demo_world three_responses 0%nat in
  let w1 := snd (TrackFetch Replay escapes_ok demo_root "MessageLogEntries" demo_pr w) in
  let run := TrackLoop Replay escapes_ok 2 demo_root "MessageLogEntries" (5 * Second)
               demo_pr w in
  run = TrackLoop Replay escapes_ok 1 demo_root "p2" (5 * Second) demo_pr w1
  /\ exists rest,
       trace (snd run) = trace w1 ++ EvDo (TrackRequest (demo_root +:+ "p2")) :: rest.
Proof.
  intros w w1 run.
  pose proof (TrackCollection_next_page_priority Replay escapes_ok 0 demo_root
                "MessageLogEntries" (5 * Second) demo_pr w w1 "p2" "d0") as H.
  cbv zeta in H.
  destruct H as (Hrun & Hreq & _);
    [discriminate | vm_compute; reflexivity | discriminate | discriminate |].
  split; [exact Hrun | apply Hreq; reflexivity].
Defined.

(** C2, counterexample.  Both tokens are non-empty ("%zz" and "d0"), yet
    pagination does not continue: the URL of the next page does not parse,
    the run panics on the nil request, and the only request of the run is
    the first one. *)
Lemma TrackCollection_next_page_priority_counterexample :
  let w := demo_world three_responses 0%nat in
  let final := TrackCollection Replay escapes_ok 3 demo_root "MessageLogEntries"
                 (5 * Second) bad_link_pr w in
  fst (TrackFetch Replay escapes_ok demo_root "MessageLogEntries" bad_link_pr w)
  = Ok ("%zz", "d0")
  /\ "%zz" <> "" /\ "d0" <> ""
  /\ fst final = Panic nil_dereference
  /\ requests (trace (snd final)) = [TrackRequest (demo_root +:+ "MessageLogEntries")]
  /\ processed (trace (snd final)) = ["page1"]
  /\ sleeps (trace (snd final)) = [].
Proof.
  cbv zeta. split; [vm_compute; reflexivity |].
  split; [discriminate |]. split; [discriminate |].
  repeat split; vm_compute; reflexivity.
Qed.

Lemma TrackCollection_three_responses_witness :
  exists w',
    TrackCollection Replay escapes_ok 3 demo_root "MessageLogEntries" (5 * Second) demo_pr
      (demo_world three_responses 0%nat) = (Ok tt, w')
    /\ trace w' =
         [EvDo (TrackRequest (demo_root +:+ "MessageLogEntries")); EvProcess "page1";
          EvDo (TrackRequest (demo_root +:+ "p2")); EvProcess "page2";
          EvSleep (5 * Second);
          EvDo (TrackRequest (demo_root +:+ "d1")); EvProcess "delta1";
          EvClose 2; EvClose 1; EvClose 0]
    /\ net w' = [] /\ user w' = 3%nat.
Proof.
  apply (TrackCollection_three_responses escapes_ok demo_root "MessageLogEntries"
           (5 * Second) demo_pr (demo_world three_responses 0%nat)
           200 "200 OK" "page1" 200 "200 OK" "page2" 200 "200 OK" "delta1"
           "d0" 1%nat 2%nat 3%nat 3%nat).
  - discriminate.
  - reflexivity.
  - reflexivity.
  - reflexivity.
  - reflexivity.
  - reflexivity.
  - reflexivity.
  - reflexivity.
  - lia.
Defined.

(** C3, counterexample.  The three-response sequence of the claim, tracked
    from the base "%zz": response 1 answers next link "p2", response 2 the
    delta link "d1", response 3 neither, but no URL under this base parses,
    so [TrackCollection] issues no request at all, invokes the callback
    not once and never sleeps: it panics on the nil request.  Under the
    base "http://tm1:8000/%4" with the start link "1" the first URL parses
    (the escape is %41) and the one for "p2" does not (%4p): one request,
    one callback invocation, then the panic. *)
Lemma TrackCollection_three_responses_counterexample :
  let w := demo_world three_responses 0%nat in
  let final := TrackCollection Replay escapes_ok 3 "%zz" "MessageLogEntries"
                 (5 * Second) demo_pr w in
  let final' := TrackCollection Replay escapes_ok 3 "http://tm1:8000/%4" "1"
                  (5 * Second) demo_pr w in
  (demo_pr 0%nat "page1" = (1%nat, Ok ("p2", "d0"))
   /\ demo_pr 1%nat "page2" = (2%nat, Ok ("", "d1"))
   /\ demo_pr 2%nat "delta1" = (3%nat, Ok ("", "")))
  /\ (fst final = Panic nil_dereference
      /\ requests (trace (snd final)) = []
      /\ processed (trace (snd final)) = []
      /\ sleeps (trace (snd final)) = []
      /\ net (snd final) = three_responses)
  /\ (fst final' = Panic nil_dereference
      /\ requests (trace (snd final')) = [TrackRequest "http://tm1:8000/%41"]
      /\ processed (trace (snd final')) = ["page1"]
      /\ sleeps (trace (snd final')) = []).
Proof.
  cbv zeta. repeat split; vm_compute; reflexivity.
Qed.

Lemma IterateCollection_pagination_complete_witness :
  exists w' new,
    IterateCollection Replay escapes_ok 2 demo_root "Cubes" demo_iter_pr
      (demo_world (map inr two_pages) 0%nat) = (Ok tt, w')
    /\ trace w' = [] ++ new
    /\ new = cycle_events PlainRequest demo_root ["Cubes"; "page2"] ["page1"; "page2"]
             ++ [EvClose 1; EvClose 0]
    /\ processed new = ["page1"; "page2"]
    /\ requests new = [PlainRequest (demo_root +:+ "Cubes");
                       PlainRequest (demo_root +:+ "page2")]
    /\ sleeps new = []
    /\ net w' = [] /\ user w' = 2%nat.
Proof.
  apply (IterateCollection_pagination_complete escapes_ok demo_root "Cubes" demo_iter_pr
           (demo_world (map inr two_pages) 0%nat) two_pages [(2, "page2")] (1, "")
           2%nat 2%nat).
  - discriminate.
  - repeat constructor.
  - reflexivity.
  - simpl. exists 1%nat. split; [reflexivity |]. exists 2%nat. split; reflexivity.
  - constructor; [discriminate | constructor].
  - reflexivity.
  - simpl. lia.
Defined.

(** C4, counterexample.  Two responses are injected; the callback answers
    the first with the continuation link "%zz", not empty, and would answer
    the second with an empty one.  The URL of the second request does not
    parse: the iterator panics on the nil request after one callback
    invocation, the second response is never requested, and the iterator
    does not terminate by an empty link.  From the base "%zz" not even the
    first request is issued and the callback is not invoked at all. *)
Lemma IterateCollection_pagination_complete_counterexample :
  let w := demo_world (map inr two_pages) 0%nat in
  let final := IterateCollection Replay escapes_ok 2 demo_root "Cubes" bad_link_iter_pr w in
  let final' := IterateCollection Replay escapes_ok 2 "%zz" "Cubes" demo_iter_pr w in
  (callback_yields bad_link_iter_pr 0%nat (map raw_body two_pages)
     [(2, "%zz"); (1, "")] 2%nat
   /\ "%zz" <> ""
   /\ fst final = Panic nil_dereference
   /\ processed (trace (snd final)) = ["page1"]
   /\ requests (trace (snd final)) = [PlainRequest (demo_root +:+ "Cubes")]
   /\ length (net (snd final)) = 1%nat)
  /\ (callback_yields demo_iter_pr 0%nat (map raw_body two_pages)
        [(2, "page2"); (1, "")] 2%nat
      /\ fst final' = Panic nil_dereference
      /\ processed (trace (snd final')) = []
      /\ requests (trace (snd final')) = []
      /\ length (net (snd final')) = 2%nat).
Proof.
  cbv zeta.
  assert (Hy : forall pr : Callback nat (Z * string), forall o,
            pr 0%nat "page1" = (1%nat, Ok o) ->
            pr 1%nat "page2" = (2%nat, Ok (1, "")) ->
            callback_yields pr 0%nat (map raw_body two_pages) [o; (1, "")] 2%nat).
  { intros pr o H1 H2. simpl. exists 1%nat. split; [exact H1 |].
    exists 2%nat. split; [exact H2 | reflexivity]. }
  split.
  - split; [apply Hy; reflexivity |].
    split; [discriminate |].
    repeat split; vm_compute; reflexivity.
  - split; [apply Hy; reflexivity |].
    repeat split; vm_compute; reflexivity.
Qed.

Lemma ValidateStatusCode_mismatch_witness :
  exists w',
    ValidateStatusCode not_found 200 version_context not_found_world
    = (Fatal (version_context tt +:+ CRLF +:+ "Server responded with: 404 Not Found"
              +:+ CRLF +:+ "no such resource"), w')
    /\ bodies w' !! 0%nat = Some {| unread := ""; closed := false |}
    /\ trace w' = []
    /\ deferred w' = [0%nat].
Proof.
  apply (ValidateStatusCode_mismatch not_found 200 version_context not_found_world
           {| unread := "no such resource"; closed := false |}).
  - discriminate.
  - reflexivity.
  - reflexivity.
Defined.

Lemma TrackLoop_open_bodies_unbounded_witness :
  let loop := TrackLoop Replay escapes_ok 3 demo_root "MessageLogEntries" (5 * Second)
                delta_until_done (leak_world 2) in
  fst loop = Ok tt
  /\ open_bodies (bodies (snd loop)) = 3%nat
  /\ closes (trace (snd loop)) = [].
Proof.
  pose proof (TrackLoop_open_bodies_unbounded escapes_ok 2) as H.
  cbv zeta in H.
  destruct H as (Hres & Hopen & Hcloses & _); [reflexivity | reflexivity |].
  cbv zeta. split; [exact Hres |]. split; [exact Hopen | exact Hcloses].
Defined.

Lemma ExecuteGETRequestEx_noop_hook_witness :
  ExecuteGETRequestEx Replay escapes_ok (demo_root +:+ "Cubes") (fun req w => (Ok req, w))
    (demo_world three_responses 0%nat)
  = ExecuteGETRequest Replay escapes_ok (demo_root +:+ "Cubes")
      (demo_world three_responses 0%nat)
  /\ ExecuteGETRequestEx Replay escapes_ok "%zz" (fun req w => (Ok req, w))
       (demo_world three_responses 0%nat)
     = (Panic nil_dereference, demo_world three_responses 0%nat).
Proof.
  split.
  - refine (proj1 (ExecuteGETRequestEx_noop_hook Replay escapes_ok (demo_root +:+ "Cubes")
                     (fun req w => (Ok req, w)) (demo_world three_responses 0%nat) _)).
    intros req w0. reflexivity.
  - pose proof (ExecuteGETRequestEx_noop_hook Replay escapes_ok "%zz"
                  (fun req w => (Ok req, w)) (demo_world three_responses 0%nat)) as H.
    destruct H as (Heq & _ & Hpanic & _); [intros req w0; reflexivity |].
    rewrite Heq. apply Hpanic. reflexivity.
Defined.

Lemma main_version_gate_first_10_bytes_witness :
  main_version_gate "10.2.2" = Panic "runtime error: slice bounds out of range"
  /\ (exists msg, main_version_gate "10.2.20400.7" = Fatal msg)
  /\ main_version_gate "11.8.01900.10" = Ok tt.
Proof.
  split; [| split].
  - apply (proj1 (main_version_gate_first_10_bytes "10.2.2")). simpl. lia.
  - refine (proj1 (proj2 (main_version_gate_first_10_bytes "10.2.20400.7") _) _).
    + simpl. lia.
    + exists 7%nat. split; [lia |]. split.
      * intros j Hj.
        do 7 (destruct j as [| j]; [reflexivity |]). lia.
      * vm_compute. lia.
  - refine (proj2 (proj2 (main_version_gate_first_10_bytes "11.8.01900.10") _) _).
    + simpl. lia.
    + intros (i & Hi & Hpre & Hlt).
      destruct i as [| [| i]].
      * vm_compute in Hlt. lia.
      * vm_compute in Hlt. lia.
      * specialize (Hpre 1%nat ltac:(lia)). vm_compute in Hpre. discriminate.
Defined.

(** * Further properties of utils/odata.go *)

Section MoreClient.

Context {Net CB : Type}.
Variable RoundTrip : Net -> Request -> Net * (string + RawResponse).
Variable url_ok : string -> bool.

Local Abbreviation World := (World Net CB).

Lemma PostRequest_fields urlStr contentType body :
  Method (PostRequest urlStr contentType body) = "POST"
  /\ URL (PostRequest urlStr contentType body) = urlStr
  /\ ReqBody (PostRequest urlStr contentType body) = Some body
  /\ Header_Values "OData-Version" (ReqHeader (PostRequest urlStr contentType body)) = ["4.0"]
  /\ Header_Values "Accept" (ReqHeader (PostRequest urlStr contentType body))
     = ["application/json"]
  /\ Header_Values "Content-Type" (ReqHeader (PostRequest urlStr contentType body))
     = [contentType].
Proof. repeat split. Qed.

(** X1. With a pre-request hook that hands the request back unchanged and
    touches nothing else, [ExecutePOSTRequestEx] is [ExecutePOSTRequest],
    for every URL.  When the URL parses, the one request either of them
    sends is the POST for the URL with the given body, the Content-Type
    given and the two standard headers; when it does not, both panic on the
    nil request and send nothing. *)
Theorem ExecutePOSTRequestEx_noop_hook
    urlStr contentType body (preReq : Request -> M Net CB Request) (w : World) :
  (forall req (w0 : World), preReq req w0 = (Ok req, w0)) ->
  ExecutePOSTRequestEx RoundTrip url_ok urlStr contentType body preReq w
  = ExecutePOSTRequest RoundTrip url_ok urlStr contentType body w
  /\ (url_ok urlStr = true ->
      trace (snd (ExecutePOSTRequest RoundTrip url_ok urlStr contentType body w))
      = trace w ++ [EvDo (PostRequest urlStr contentType body)])
  /\ (url_ok urlStr = false ->
      ExecutePOSTRequest RoundTrip url_ok urlStr contentType body w
      = (Panic nil_dereference, w))
  /\ Method (PostRequest urlStr contentType body) = "POST"
  /\ ReqBody (PostRequest urlStr contentType body) = Some body
  /\ Header_Values "Content-Type" (ReqHeader (PostRequest urlStr contentType body))
     = [contentType].
Proof.
  intros Hnoop. split; [| split; [| split; [| by repeat split]]].
  - unfold ExecutePOSTRequestEx, ExecutePOSTRequest.
    destruct (NewRequest url_ok "POST" urlStr (Some body)); [| reflexivity].
    unfold bind at 1. by rewrite Hnoop.
  - intros Hok.
    unfold ExecutePOSTRequest, NewRequest. rewrite Hok.
    unfold bind, ret, get_Verbose, when, Do, log_Fatal, Println, PostRequest.
    destruct w as [v n bs ds out tr u].
    destruct v; simpl;
      destruct (RoundTrip n _) as [n' [err | raw]]; reflexivity.
  - intros Hno. unfold ExecutePOSTRequest, NewRequest. by rewrite Hno.
Qed.

Lemma rev_seq_S (n k : nat) : rev (seq n (S k)) = rev (seq (S n) k) ++ [n].
Proof. reflexivity. Qed.

Lemma loop_frame_stop (w w1 : World) (r : Result unit) (new : list Event) (k : nat) :
  loop_frame w r w1 new k -> loop_frame w r (snd (r, w1)) new k.
Proof. auto. Qed.

(** Joining the frame of one cycle (request, body, callback, and possibly a
    sleep) with the frame of the rest of the run. *)
Lemma loop_frame_cycle (w w2 w' : World) (r : Result unit) req body pre new k :
  trace w2 = trace w ++ [EvDo req; EvProcess body] ++ pre ->
  requests pre = [] -> processed pre = [] -> closes pre = [] ->
  bodies w2 = bodies w ++ [drained_open] ->
  deferred w2 = length (bodies w) :: deferred w ->
  Verbose w2 = Verbose w ->
  (Verbose w = false -> stdout w2 = stdout w) ->
  loop_frame w2 r w' new k ->
  loop_frame w r w' ([EvDo req; EvProcess body] ++ pre ++ new) (S k).
Proof.
  intros Ht Hr Hp Hc Hb Hd Hv Hs (Ht' & Hb' & Hd' & Hp' & Hc' & Hv' & Hs' & Hn).
  unfold loop_frame.
  rewrite !requests_app, !processed_app, !closes_app, Hr, Hp, Hc.
  split; [rewrite Ht', Ht; by rewrite <- !app_assoc |].
  split; [rewrite Hb', Hb; by rewrite <- app_assoc |].
  split.
  { rewrite Hd', Hb, Hd, length_app, rev_seq_S. cbn [length].
    rewrite <- app_assoc. cbn [app].
    by replace (length (bodies w) + 1)%nat with (S (length (bodies w))) by lia. }
  split; [simpl; by rewrite Hp' |].
  split; [by simpl |].
  split; [congruence |].
  split; [intros Hf; rewrite Hs' by congruence; auto |].
  simpl. destruct Hn as [Hn | [Hm Hn]]; [left | right]; auto.
Qed.

(** Every run of the loop of [TrackCollection] has a frame. *)
Lemma TrackLoop_frame root interval (pr : Callback CB (string * string)) fuel :
  forall url (w : World),
    exists new k,
      loop_frame w (fst (TrackLoop RoundTrip url_ok fuel root url interval pr w))
        (snd (TrackLoop RoundTrip url_ok fuel root url interval pr w)) new k.
Proof.
  assert (Hnil : forall (w : World) r, loop_frame w r w [] 0).
  { intros w r. unfold loop_frame. simpl. rewrite !app_nil_r. repeat split; auto. }
  induction fuel as [| fuel IH]; intros url w.
  - exists [], 0%nat. simpl. destruct (is_empty url); apply Hnil; auto.
  - destruct (is_empty url) eqn:E.
    { exists [], 0%nat. simpl. rewrite E. apply Hnil; auto. }
    apply is_empty_false in E.
    rewrite (TrackLoop_step _ _ _ _ _ _ _ _ E), TrackFetch_eq. cbv zeta.
    destruct (url_ok (root +:+ url)); [| exists [], 0%nat; apply Hnil].
    destruct (RoundTrip (net w) _) as [n' [err | raw]].
    { exists [EvDo (TrackRequest (root +:+ url))], 0%nat.
      unfold loop_frame. simpl. rewrite app_nil_r.
      repeat split; auto.
      - intros Hv. rewrite Hv. simpl. by rewrite app_nil_r.
      - right. eauto. }
    set (w1 := {| Verbose := Verbose w; net := n';
                  bodies := bodies w ++ [{| unread := ""; closed := false |}];
                  deferred := length (bodies w) :: deferred w;
                  stdout := _; trace := _; user := _ |}).
    assert (Hv1 : Verbose w = false -> stdout w1 = stdout w).
    { intros Hv. subst w1. simpl. rewrite Hv. simpl. by rewrite app_nil_r. }
    assert (Hone : forall r : Result unit,
              loop_frame w r w1
                ([EvDo (TrackRequest (root +:+ url)); EvProcess (raw_body raw)] ++ [] ++ []) 1).
    { intros r. apply (loop_frame_cycle w w1 w1 r _ _ [] [] 0%nat); auto. }
    assert (Hgo : forall u pre (w2 : World),
              trace w2 = trace w1 ++ pre -> requests pre = [] -> processed pre = [] ->
              closes pre = [] -> bodies w2 = bodies w1 -> deferred w2 = deferred w1 ->
              Verbose w2 = Verbose w1 -> stdout w2 = stdout w1 ->
              exists new k,
                loop_frame w (fst (TrackLoop RoundTrip url_ok fuel root u interval pr w2))
                  (snd (TrackLoop RoundTrip url_ok fuel root u interval pr w2)) new k).
    { intros u pre w2 Ht Hr Hp Hc Hb Hd Hv Hs.
      destruct (IH u w2) as (new & k & Hf).
      eexists. exists (S k).
      eapply (loop_frame_cycle w w2 _ _ _ _ pre new k); eauto.
      - rewrite Ht. subst w1. simpl. by rewrite <- app_assoc.
      - intros Hf'. rewrite Hs. auto. }
    destruct (snd (pr (user w) (raw_body raw))) as [[n d] | m | m |];
      [| eexists; eexists; apply (Hone (Fatal m))
       | eexists; eexists; apply (Hone (Panic m))
       | eexists; eexists; apply (Hone OutOfFuel)].
    destruct (is_empty n); simpl.
    + destruct (is_empty d); simpl.
      * eexists. eexists. apply (Hone (Ok tt)).
      * apply (Hgo d [EvSleep interval]); auto.
    + apply (Hgo n []); auto. by rewrite app_nil_r.
Qed.

(** Every run of the loop of [IterateCollection] has a frame; its requests
    are the plain GET requests, and it never sleeps. *)
Lemma IterateLoop_frame root (pr : Callback CB (Z * string)) fuel :
  forall url (w : World),
    exists new k,
      loop_frame w (fst (IterateLoop RoundTrip url_ok fuel root url pr w))
        (snd (IterateLoop RoundTrip url_ok fuel root url pr w)) new k
      /\ Forall (fun req => exists u, req = PlainRequest (root +:+ u)) (requests new)
      /\ sleeps new = [].
Proof.
  assert (Hnil : forall (w : World) r, loop_frame w r w [] 0).
  { intros w r. unfold loop_frame. simpl. rewrite !app_nil_r. repeat split; auto. }
  induction fuel as [| fuel IH]; intros url w.
  - exists [], 0%nat. simpl. destruct (is_empty url); split; auto.
  - destruct (is_empty url) eqn:E.
    { exists [], 0%nat. simpl. rewrite E. split; auto. }
    apply is_empty_false in E.
    rewrite (IterateLoop_step _ _ _ _ _ _ _ E). cbv zeta.
    destruct (url_ok (root +:+ url)); [| exists [], 0%nat; split; auto].
    destruct (RoundTrip (net w) _) as [n' [err | raw]].
    { exists [EvDo (PlainRequest (root +:+ url))], 0%nat.
      split; [| split; [repeat constructor; eauto | reflexivity]].
      unfold loop_frame. simpl. rewrite app_nil_r.
      repeat split; auto.
      - intros Hv. rewrite Hv. simpl. by rewrite app_nil_r.
      - right. eauto. }
    set (w1 := {| Verbose := Verbose w; net := n';
                  bodies := bodies w ++ [{| unread := ""; closed := false |}];
                  deferred := length (bodies w) :: deferred w;
                  stdout := _; trace := _; user := _ |}).
    assert (Hv1 : Verbose w = false -> stdout w1 = stdout w).
    { intros Hv. subst w1. simpl. rewrite Hv. simpl. by rewrite app_nil_r. }
    assert (Hone : forall r : Result unit,
              exists new k, loop_frame w r w1 new k
                /\ Forall (fun req => exists u, req = PlainRequest (root +:+ u)) (requests new)
                /\ sleeps new = []).
    { intros r.
      exists ([EvDo (PlainRequest (root +:+ url)); EvProcess (raw_body raw)] ++ [] ++ []), 1%nat.
      split; [| split; [repeat constructor; eauto | reflexivity]].
      apply (loop_frame_cycle w w1 w1 r _ _ [] [] 0%nat); auto. }
    destruct (snd (pr (user w) (raw_body raw))) as [[c l] | m | m |];
      [| apply (Hone (Fatal m)) | apply (Hone (Panic m)) | apply (Hone OutOfFuel)].
    cbn [snd].
    destruct (IH l w1) as (new & k & Hf & Hreq & Hsl).
    exists ([EvDo (PlainRequest (root +:+ url)); EvProcess (raw_body raw)] ++ [] ++ new), (S k).
    split; [| split].
    + eapply (loop_frame_cycle w w1 _ _ _ _ [] new k); eauto.
    + simpl. constructor; eauto.
    + exact Hsl.
Qed.

(** Closing the [k] newest bodies, newest first, as the deferred calls do. *)
Lemma run_deferred_closes (k : nat) : forall (pre post : list BodyState) (w : World),
  bodies w = pre ++ replicate k drained_open ++ post ->
  bodies (run_deferred (rev (seq (length pre) k)) w)
  = pre ++ replicate k drained_closed ++ post.
Proof.
  induction k as [| k IH]; intros pre post w Hb; [exact Hb |].
  rewrite seq_S, rev_app_distr. cbn [rev app run_deferred].
  rewrite replicate_S_end, <- app_assoc in Hb. cbn [app] in Hb.
  assert (Hlook : bodies w !! (length pre + k)%nat = Some drained_open).
  { rewrite Hb, app_assoc. apply list_lookup_middle.
    by rewrite length_app, length_replicate. }
  rewrite (IH pre (drained_closed :: post)).
  - rewrite replicate_S_end, <- app_assoc. reflexivity.
  - unfold Close. cbn [snd bodies]. rewrite Hlook, Hb.
    rewrite app_assoc, insert_app_r_alt by (rewrite length_app, length_replicate; lia).
    rewrite length_app, length_replicate, Nat.sub_diag. cbn [unread drained_open].
    by rewrite <- app_assoc.
Qed.

Lemma run_deferred_deferred (ds : list nat) : forall w : World,
  deferred (run_deferred ds w) = deferred w.
Proof.
  induction ds as [| id ds IH]; intros w; [reflexivity |].
  cbn [run_deferred]. by rewrite IH.
Qed.

(** A function whose body has a loop frame and ends by a return or a panic
    leaves every body of the frame closed. *)
Lemma func_closes_frame (body : M Net CB unit) (w : World) new k :
  loop_frame (set_deferred [] w) (fst (body (set_deferred [] w)))
    (snd (body (set_deferred [] w))) new k ->
  unwinds (fst (func body w)) = true ->
  trace (snd (func body w))
  = trace w ++ new ++ map EvClose (rev (seq (length (bodies w)) k))
  /\ bodies (snd (func body w)) = bodies w ++ replicate k drained_closed
  /\ deferred (snd (func body w)) = deferred w
  /\ length (processed new) = k
  /\ length (requests new) = k.
Proof.
  intros (Ht & Hb & Hd & Hp & Hc & _ & _ & Hn) Hu.
  assert (Hreq : length (requests new) = k).
  { destruct Hn as [Hn | [[msg Hm] _]]; [exact Hn |].
    rewrite func_result, Hm in Hu. discriminate. }
  unfold func in *.
  destruct (body (set_deferred [] w)) as [[[] | m | m |] w1]; try discriminate;
    cbn [fst snd trace bodies deferred set_deferred] in *;
    rewrite app_nil_r in Hd; rewrite Hd;
    rewrite run_deferred_trace, Ht, <- app_assoc;
    rewrite (run_deferred_closes k (bodies w) [] w1) by (by rewrite app_nil_r);
    rewrite app_nil_r; auto.
Qed.

(** X2. When a call of [TrackCollection] returns (or panics in the
    callback) rather than exiting the process, every response body it
    obtained has been drained and closed: the bodies are closed newest
    first after the last cycle, nothing that was open before is touched,
    and there was one request and one callback per body. *)
Theorem TrackCollection_closes_on_return
    fuel root url interval (pr : Callback CB (string * string)) (w : World) :
  unwinds (fst (TrackCollection RoundTrip url_ok fuel root url interval pr w)) = true ->
  exists new k,
    trace (snd (TrackCollection RoundTrip url_ok fuel root url interval pr w))
    = trace w ++ new ++ map EvClose (rev (seq (length (bodies w)) k))
    /\ bodies (snd (TrackCollection RoundTrip url_ok fuel root url interval pr w))
       = bodies w ++ replicate k drained_closed
    /\ deferred (snd (TrackCollection RoundTrip url_ok fuel root url interval pr w)) = deferred w
    /\ length (processed new) = k
    /\ length (requests new) = k.
Proof.
  intros Hu.
  destruct (TrackLoop_frame root interval pr fuel url (set_deferred [] w)) as (new & k & Hf).
  exists new, k. by apply func_closes_frame.
Qed.

(** X3. The same for [IterateCollection], which in addition never sleeps
    and sends only plain GET requests. *)
Theorem IterateCollection_closes_on_return
    fuel root url (pr : Callback CB (Z * string)) (w : World) :
  unwinds (fst (IterateCollection RoundTrip url_ok fuel root url pr w)) = true ->
  exists new k,
    trace (snd (IterateCollection RoundTrip url_ok fuel root url pr w))
    = trace w ++ new ++ map EvClose (rev (seq (length (bodies w)) k))
    /\ bodies (snd (IterateCollection RoundTrip url_ok fuel root url pr w))
       = bodies w ++ replicate k drained_closed
    /\ deferred (snd (IterateCollection RoundTrip url_ok fuel root url pr w)) = deferred w
    /\ length (processed new) = k
    /\ length (requests new) = k.
Proof.
  intros Hu.
  destruct (IterateLoop_frame root pr fuel url (set_deferred [] w))
    as (new & k & Hf & _).
  exists new, k. by apply func_closes_frame.
Qed.

Lemma PlainRequest_headers urlStr :
  Method (PlainRequest urlStr) = "GET"
  /\ ReqBody (PlainRequest urlStr) = None
  /\ Header_Values "OData-Version" (ReqHeader (PlainRequest urlStr)) = ["4.0"]
  /\ Header_Values "Accept" (ReqHeader (PlainRequest urlStr)) = ["application/json"]
  /\ Header_Values "Prefer" (ReqHeader (PlainRequest urlStr)) = [].
Proof. repeat split. Qed.

(** X4. Every request a call of [IterateCollection] issues is a GET without
    body that carries OData-Version: 4.0 and Accept: application/json and no
    Prefer header, and the call never sleeps, whatever the transport and the
    callback do. *)
Theorem IterateCollection_request_headers
    fuel root url (pr : Callback CB (Z * string)) (w : World) :
  exists new,
    trace (snd (IterateCollection RoundTrip url_ok fuel root url pr w)) = trace w ++ new
    /\ Forall (fun req =>
                 Method req = "GET" /\ ReqBody req = None
                 /\ Header_Values "OData-Version" (ReqHeader req) = ["4.0"]
                 /\ Header_Values "Accept" (ReqHeader req) = ["application/json"]
                 /\ Header_Values "Prefer" (ReqHeader req) = [])
         (requests new)
    /\ sleeps new = [].
Proof.
  unfold IterateCollection.
  destruct (func_trace (IterateLoop RoundTrip url_ok fuel root url pr) w) as [ds Hds].
  destruct (IterateLoop_frame root pr fuel url (set_deferred [] w))
    as (new & k & (Htr & _) & Hreq & Hsl).
  exists (new ++ map EvClose ds). split; [| split].
  - rewrite Hds, Htr. simpl. by rewrite app_assoc.
  - rewrite requests_app, requests_closes, app_nil_r.
    eapply Forall_impl; [exact Hreq |].
    intros req [u ->]. apply PlainRequest_headers.
  - by rewrite sleeps_app, sleeps_closes, app_nil_r.
Qed.

(** X5. With an empty start link neither [TrackCollection] nor
    [IterateCollection] does anything: no request, no callback, the world
    is as it was, and the call returns. *)
Theorem empty_link_no_request
    fuel root interval (prT : Callback CB (string * string))
    (prI : Callback CB (Z * string)) (w : World) :
  TrackCollection RoundTrip url_ok fuel root "" interval prT w = (Ok tt, w)
  /\ IterateCollection RoundTrip url_ok fuel root "" prI w = (Ok tt, w).
Proof.
  unfold TrackCollection, IterateCollection, func.
  destruct fuel; simpl; by rewrite set_deferred_id.
Qed.

(** X6. In any call of [TrackCollection] each response obtained is handed
    to the callback before anything else is requested: the requests sent
    are as many as the callback invocations, or one more when the process
    exits through [log.Fatal]. *)
Theorem TrackCollection_one_request_per_callback
    fuel root url interval (pr : Callback CB (string * string)) (w : World) :
  exists new,
    trace (snd (TrackCollection RoundTrip url_ok fuel root url interval pr w)) = trace w ++ new
    /\ (length (requests new) = length (processed new)
        \/ (exists msg, fst (TrackCollection RoundTrip url_ok fuel root url interval pr w) = Fatal msg)
           /\ length (requests new) = S (length (processed new))).
Proof.
  unfold TrackCollection.
  destruct (func_trace (TrackLoop RoundTrip url_ok fuel root url interval pr) w) as [ds Hds].
  destruct (TrackLoop_frame root interval pr fuel url (set_deferred [] w))
    as (new & k & Htr & _ & _ & Hp & _ & _ & _ & Hn).
  exists (new ++ map EvClose ds). split.
  - rewrite Hds, Htr. simpl. by rewrite app_assoc.
  - rewrite requests_app, processed_app, requests_closes, processed_closes, !app_nil_r.
    rewrite Hp, func_result. exact Hn.
Qed.

Lemma TrackLoop_restatus f root interval (pr : Callback CB (string * string)) fuel :
  forall url (w : World),
    TrackLoop (restatus f RoundTrip) url_ok fuel root url interval pr w
    = TrackLoop RoundTrip url_ok fuel root url interval pr w.
Proof.
  induction fuel as [| fuel IH]; intros url w; [reflexivity |].
  destruct (is_empty url) eqn:E; [simpl; by rewrite E |].
  apply is_empty_false in E.
  rewrite !TrackLoop_step, !TrackFetch_eq by assumption. cbv zeta.
  destruct (url_ok (root +:+ url)); [| reflexivity].
  unfold restatus at 1.
  destruct (RoundTrip (net w) _) as [n' [err | raw]]; cbn [fst snd raw_body]; [reflexivity |].
  destruct (snd (pr (user w) (raw_body raw))) as [[n d] | m | m |]; try reflexivity.
  destruct (is_empty n); simpl; [| apply IH].
  destruct (is_empty d); simpl; [reflexivity | apply IH].
Qed.

Lemma IterateLoop_restatus f root (pr : Callback CB (Z * string)) fuel :
  forall url (w : World),
    IterateLoop (restatus f RoundTrip) url_ok fuel root url pr w
    = IterateLoop RoundTrip url_ok fuel root url pr w.
Proof.
  induction fuel as [| fuel IH]; intros url w; [reflexivity |].
  destruct (is_empty url) eqn:E; [simpl; by rewrite E |].
  apply is_empty_false in E.
  rewrite !IterateLoop_step by assumption. cbv zeta.
  destruct (url_ok (root +:+ url)); [| reflexivity].
  unfold restatus at 1.
  destruct (RoundTrip (net w) _) as [n' [err | raw]]; cbn [fst snd raw_body]; [reflexivity |].
  destruct (snd (pr (user w) (raw_body raw))) as [[c l] | m | m |]; try reflexivity.
  apply IH.
Qed.

(** X7. Neither [TrackCollection] nor [IterateCollection] looks at the
    status of a response: with the status code and status line of every
    response replaced by anything, the run is the same, result and world;
    the body of a 404 or 500 answer goes to the callback like any other. *)
Theorem collections_ignore_status
    (f : RawResponse -> Z * string) fuel root url interval
    (prT : Callback CB (string * string)) (prI : Callback CB (Z * string)) (w : World) :
  TrackCollection (restatus f RoundTrip) url_ok fuel root url interval prT w
  = TrackCollection RoundTrip url_ok fuel root url interval prT w
  /\ IterateCollection (restatus f RoundTrip) url_ok fuel root url prI w
     = IterateCollection RoundTrip url_ok fuel root url prI w.
Proof.
  unfold TrackCollection, IterateCollection, func.
  by rewrite TrackLoop_restatus, IterateLoop_restatus.
Qed.

(** X8. A transport error in any cycle of either loop, at a URL that
    parses, ends the process with that error: the failed request is the
    last event, it is not sent again, the callback is not invoked and no
    body is added or closed. *)
Theorem transport_error_is_fatal
    fuel root url interval (prT : Callback CB (string * string))
    (prI : Callback CB (Z * string)) (w : World) :
  url <> "" ->
  url_ok (root +:+ url) = true ->
  (forall n' err,
     RoundTrip (net w) (TrackRequest (root +:+ url)) = (n', inl err) ->
     exists w',
       TrackLoop RoundTrip url_ok (S fuel) root url interval prT w = (Fatal err, w')
       /\ trace w' = trace w ++ [EvDo (TrackRequest (root +:+ url))]
       /\ bodies w' = bodies w /\ user w' = user w /\ net w' = n')
  /\ (forall n' err,
        RoundTrip (net w) (PlainRequest (root +:+ url)) = (n', inl err) ->
        exists w',
          IterateLoop RoundTrip url_ok (S fuel) root url prI w = (Fatal err, w')
          /\ trace w' = trace w ++ [EvDo (PlainRequest (root +:+ url))]
          /\ bodies w' = bodies w /\ user w' = user w /\ net w' = n').
Proof.
  intros Hurl Hok. split; intros n' err HRT.
  - rewrite TrackLoop_step, TrackFetch_eq by assumption. cbv zeta. rewrite Hok, HRT.
    eexists. split; [reflexivity |]. auto.
  - rewrite IterateLoop_step by assumption. cbv zeta. rewrite Hok, HRT.
    eexists. split; [reflexivity |]. auto.
Qed.

(** X9. When the callback ends the process on a body ([log.Fatal] on a body
    it cannot decode) that was fetched from a URL that parses, the loop of
    [TrackCollection] stops there with the callback's message: the callback
    invocation is the last event, and the body stays drained and open. *)
Theorem callback_failure_is_fatal
    fuel root url interval (pr : Callback CB (string * string)) (w : World) n' raw msg :
  url <> "" ->
  url_ok (root +:+ url) = true ->
  RoundTrip (net w) (TrackRequest (root +:+ url)) = (n', inr raw) ->
  snd (pr (user w) (raw_body raw)) = Fatal msg ->
  exists w',
    TrackLoop RoundTrip url_ok (S fuel) root url interval pr w = (Fatal msg, w')
    /\ fst (TrackCollection RoundTrip url_ok (S fuel) root url interval pr w) = Fatal msg
    /\ trace w' = trace w ++ [EvDo (TrackRequest (root +:+ url)); EvProcess (raw_body raw)]
    /\ bodies w' = bodies w ++ [drained_open]
    /\ user w' = fst (pr (user w) (raw_body raw)).
Proof.
  intros Hurl Hok HRT Hpr.
  assert (Hloop : forall w0 : World, net w0 = net w -> user w0 = user w ->
            fst (TrackLoop RoundTrip url_ok (S fuel) root url interval pr w0) = Fatal msg).
  { intros w0 Hn Hu. rewrite TrackLoop_step, TrackFetch_eq by assumption. cbv zeta.
    rewrite Hok, Hn, HRT, Hu, Hpr. reflexivity. }
  unfold TrackCollection. rewrite func_result, Hloop by reflexivity.
  rewrite TrackLoop_step, TrackFetch_eq by assumption. cbv zeta. rewrite Hok, HRT, Hpr.
  eexists. split; [reflexivity |]. auto.
Qed.

End MoreClient.

(** * Further properties of main.go *)

Lemma parse_digits_nonneg s : forall acc n,
  0 <= acc -> parse_digits acc s = Some n -> 0 <= n.
Proof.
  induction s as [| c s IH]; intros acc n Hacc H; simpl in H.
  - injection H as <-. assumption.
  - destruct (digit_of c) as [d |] eqn:E; [| discriminate].
    apply digit_of_range in E. eapply IH; [| exact H]. lia.
Qed.

Lemma parse_digits_ge s : forall acc n,
  0 <= acc -> parse_digits acc s = Some n -> acc <= n.
Proof.
  induction s as [| c s IH]; intros acc n Hacc H; simpl in H.
  - injection H as <-. lia.
  - destruct (digit_of c) as [d |] eqn:E; [| discriminate].
    apply digit_of_range in E. apply IH in H; lia.
Qed.

Lemma ParseUint_cutoff : MaxUint64 / 10 + 1 = 1844674407370955162.
Proof. reflexivity. Qed.

(** [ParseUint] never leaves the range of [uint64]. *)
Lemma ParseUint_loop_range s : forall n,
  0 <= n <= MaxUint64 -> 0 <= fst (ParseUint_loop n s) <= MaxUint64.
Proof.
  induction s as [| c s IH]; intros n Hn; simpl; [exact Hn |].
  destruct (digit_of c) as [d |] eqn:E; [| simpl; unfold MaxUint64; lia].
  apply digit_of_range in E.
  destruct (MaxUint64 / 10 + 1 <=? n) eqn:E1; [simpl; unfold MaxUint64; lia |].
  destruct (MaxUint64 <? 10 * n + d) eqn:E2; [simpl; unfold MaxUint64; lia |].
  apply IH. apply Z.ltb_ge in E2. lia.
Qed.

(** On digits whose value fits [uint64], [ParseUint] returns that value. *)
Lemma ParseUint_loop_digits s : forall acc n,
  0 <= acc -> parse_digits acc s = Some n -> n <= MaxUint64 ->
  ParseUint_loop acc s = (n, None).
Proof.
  induction s as [| c s IH]; intros acc n Hacc H Hn;
    cbn [parse_digits ParseUint_loop] in *.
  - by injection H as <-.
  - destruct (digit_of c) as [d |] eqn:E; [| discriminate].
    apply digit_of_range in E.
    assert (Hge : 10 * acc + d <= n) by (apply (parse_digits_ge s); [lia | exact H]).
    rewrite ParseUint_cutoff.
    destruct (1844674407370955162 <=? acc) eqn:E1;
      [apply Z.leb_le in E1; unfold MaxUint64 in Hn; lia |].
    destruct (MaxUint64 <? 10 * acc + d) eqn:E2; [apply Z.ltb_lt in E2; lia |].
    apply IH; [lia | assumption | assumption].
Qed.

(** [Atoi] never leaves the range of [int]. *)
Lemma Atoi_range s : MinInt64 <= fst (Atoi s) <= MaxInt64.
Proof.
  unfold Atoi.
  destruct s as [| c rest]; [unfold MinInt64, MaxInt64; simpl; lia |].
  destruct (if Ascii.eqb c "+" then (false, rest)
            else if Ascii.eqb c "-" then (true, rest) else (false, String c rest))
    as [neg digits].
  assert (Hr : 0 <= fst (ParseUint digits) <= MaxUint64).
  { unfold ParseUint. destruct (is_empty digits); [by vm_compute |].
    apply ParseUint_loop_range. by vm_compute. }
  destruct (ParseUint digits) as [un [[|] |]]; cbn [fst] in Hr;
    [unfold MinInt64, MaxInt64; simpl; lia | |].
  all: destruct neg; cbn [negb andb].
  all: try (destruct (- MinInt64 <? un) eqn:E1; cbn [fst];
      [| apply Z.ltb_ge in E1]; unfold MinInt64, MaxInt64 in *; lia).
  all: destruct (MaxInt64 <? un) eqn:E1; cbn [fst];
      [| apply Z.ltb_ge in E1]; unfold MinInt64, MaxInt64 in *; lia.
Qed.

(** X10. Whatever the environment holds, the variable [interval] of main
    ends up at least 1 and at most the largest [int]: zero, negative,
    missing and unreadable values are all replaced by 5. *)
Theorem main_interval_bounds (env : gmap string string) :
  1 <= main_interval env <= MaxInt64
  /\ (fst (Atoi (Getenv env "TM1_TRACKER_INTERVAL")) < 1 -> main_interval env = 5).
Proof.
  unfold main_interval.
  pose proof (Atoi_range (Getenv env "TM1_TRACKER_INTERVAL")) as [_ Hmax].
  destruct (fst (Atoi (Getenv env "TM1_TRACKER_INTERVAL")) <? 1) eqn:E.
  - unfold MaxInt64. split; [lia | auto].
  - apply Z.ltb_ge in E. split; [lia | intros; lia].
Qed.

Lemma string_length_app a b : String.length (a +:+ b) = (String.length a + String.length b)%nat.
Proof. induction a as [| c a IH]; simpl; [reflexivity | by rewrite IH]. Qed.

Lemma substring_0_app a b : substring 0 (String.length a) (a +:+ b) = a.
Proof.
  induction a as [| c a IH]; simpl; [by destruct b | by rewrite IH].
Qed.

Lemma substring_0_all a : substring 0 (String.length a) a = a.
Proof. induction a as [| c a IH]; simpl; [reflexivity | by rewrite IH]. Qed.

(** X11. The version gate depends on the first 10 bytes only: a body made
    of 10 bytes followed by anything never panics and passes exactly when
    the 10 bytes alone pass. *)
Theorem main_version_gate_prefix (p s : string) :
  String.length p = 10%nat ->
  (main_version_gate (p +:+ s) = Ok tt <-> main_version_gate p = Ok tt)
  /\ (forall msg, main_version_gate (p +:+ s) <> Panic msg).
Proof.
  intros Hlen. unfold main_version_gate.
  rewrite string_length_app, Hlen. cbn [Nat.add Nat.ltb Nat.leb].
  pose proof (substring_0_app p s) as H1. pose proof (substring_0_all p) as H2.
  rewrite Hlen in H1, H2. rewrite H1, H2.
  destruct (string_ltb p "10.2.20500"); split; try split; try discriminate; auto.
Qed.

(** X12. The comparison is on bytes, not on numbers: a body of at least 10
    bytes whose first byte is above the digit 1 passes the gate whatever
    follows, so a server that reports 9.5.2 with a long enough build number
    is accepted. *)
Theorem main_version_gate_first_byte (c : ascii) (rest : string) :
  (9 <= String.length rest)%nat ->
  (nat_of_ascii "1" < nat_of_ascii c)%nat ->
  main_version_gate (String c rest) = Ok tt.
Proof.
  intros Hlen Hc. unfold main_version_gate.
  cbn [String.length].
  destruct (S (String.length rest) <? 10)%nat eqn:E;
    [apply Nat.ltb_lt in E; lia |].
  cbn [substring string_ltb].
  destruct (nat_of_ascii c <? nat_of_ascii "1")%nat eqn:E1;
    [apply Nat.ltb_lt in E1; lia |].
  destruct (nat_of_ascii "1" <? nat_of_ascii c)%nat eqn:E2;
    [reflexivity | apply Nat.ltb_ge in E2; lia].
Qed.

(** ** The message log entries *)

Lemma wrap64_small z : MinInt64 <= z <= MaxInt64 -> wrap64 z = z.
Proof.
  unfold wrap64, MinInt64, MaxInt64. intros H.
  rewrite Z.mod_small by lia. lia.
Qed.

Section Entries.

Context {Time : Type}.
Variable time_Parse : string -> Time.

Local Abbreviation Tracker := (Tracker (Time := Time)).
Local Abbreviation process1 := (processEntry time_Parse).

Lemma processEntry_other (st : Tracker) e :
  is_view_create e = false -> process1 st e = st.
Proof. unfold is_view_create, processEntry. by intros ->. Qed.

(** X13. Only the entries of the logger TM1.MdxViewCreate count: processing
    a list of entries gives the state, and prints the lines, that processing
    its TM1.MdxViewCreate entries alone gives. *)
Theorem processEntry_only_view_create (es : list MessageLogEntry) (st : Tracker) :
  fold_left process1 es st
  = fold_left process1 (List.filter is_view_create es) st.
Proof.
  revert st. induction es as [| e es IH]; intros st; [reflexivity |].
  cbn [fold_left List.filter].
  destruct (is_view_create e) eqn:E.
  - cbn [fold_left]. apply IH.
  - rewrite processEntry_other by assumption. apply IH.
Qed.

(** What one entry does to the count and to the lines. *)
Lemma processEntry_count (st : Tracker) e :
  exists new,
    printed (process1 st e) = printed st ++ new
    /\ (is_created e = true ->
        queryCount (process1 st e) = wrap64 (queryCount st + 1)
        /\ omap result_count new = [wrap64 (queryCount st + 1)])
    /\ (is_created e = false ->
        queryCount (process1 st e) = queryCount st
        /\ omap result_count new = []).
Proof.
  unfold is_created, is_view_create, processEntry.
  destruct (String.eqb (Logger e) "TM1.MdxViewCreate"); cbn [andb].
  - destruct (String.eqb (Message e) "View is created.");
      destruct (threadMap st !! ThreadID e); cbn [printed queryCount];
      try (eexists; split; [reflexivity |]; split; [intros _ | discriminate]; by split);
      try (exists []; rewrite app_nil_r; split; [reflexivity |];
           split; [discriminate | intros _]; by split);
      eexists; split; [reflexivity |]; split; [discriminate | intros _]; by split.
  - exists []. rewrite app_nil_r. split; [reflexivity |].
    split; [discriminate | intros _]. by split.
Qed.

(** X14. The query numbers are consecutive: after a list of entries the
    count has grown by the number of its "View is created." entries, and the
    lines that report a view (QUERY, or ERROR when the start was not seen)
    carry the numbers that follow the old count, one per such entry, in
    order.  (The count is an [int]: this holds while it does not overflow.) *)
Theorem processEntry_numbers (es : list MessageLogEntry) (st : Tracker) :
  MinInt64 <= queryCount st ->
  queryCount st + Z.of_nat (length (List.filter is_created es)) <= MaxInt64 ->
  queryCount (fold_left process1 es st)
  = queryCount st + Z.of_nat (length (List.filter is_created es))
  /\ exists new,
       printed (fold_left process1 es st) = printed st ++ new
       /\ omap result_count new
          = count_up (queryCount st) (length (List.filter is_created es)).
Proof.
  revert st. induction es as [| e es IH]; intros st Hmin Hmax.
  - simpl. split; [lia |]. exists []. by rewrite app_nil_r.
  - cbn [fold_left List.filter] in *.
    destruct (processEntry_count st e) as (new1 & Hp1 & Hc & Hn).
    destruct (is_created e) eqn:E.
    + destruct (Hc eq_refl) as [Hq Ho]. cbn [length] in *.
      rewrite wrap64_small in Hq, Ho by (unfold MinInt64, MaxInt64 in *; lia).
      destruct (IH (process1 st e)) as (Hq' & new & Hp & Ho');
        [rewrite Hq; unfold MinInt64 in *; lia | rewrite Hq; lia |].
      split; [rewrite Hq', Hq; lia |].
      exists (new1 ++ new). split; [by rewrite Hp, Hp1, app_assoc |].
      rewrite omap_app, Ho, Ho', Hq. reflexivity.
    + destruct (Hn eq_refl) as [Hq Ho].
      destruct (IH (process1 st e)) as (Hq' & new & Hp & Ho');
        [by rewrite Hq | by rewrite Hq |].
      split; [by rewrite Hq', Hq |].
      exists (new1 ++ new). split; [by rewrite Hp, Hp1, app_assoc |].
      by rewrite omap_app, Ho, Ho', Hq.
Qed.

(** An entry that is not a "View is created." entry of thread [t] leaves
    a recorded start of [t] as it is. *)
Lemma processEntry_keeps_start (st : Tracker) e t ts :
  threadMap st !! t = Some ts ->
  is_created e && (ThreadID e =? t) = false ->
  threadMap (process1 st e) !! t = Some ts.
Proof.
  intros Hts He. unfold is_created, is_view_create in He. unfold processEntry.
  destruct (String.eqb (Logger e) "TM1.MdxViewCreate"); [| exact Hts].
  destruct (Z.eq_dec (ThreadID e) t) as [Heq | Hne].
  - rewrite Heq in *. rewrite Z.eqb_refl, andb_true_r in He. cbn [andb] in He.
    rewrite He, Hts. exact Hts.
  - destruct (String.eqb (Message e) "View is created.");
      destruct (threadMap st !! ThreadID e); cbn [threadMap]; auto.
    + by rewrite lookup_delete_ne.
    + by rewrite lookup_insert_ne.
Qed.

Lemma fold_processEntry_keeps_start (es : list MessageLogEntry) : forall (st : Tracker) t ts,
  threadMap st !! t = Some ts ->
  Forall (fun e => is_created e && (ThreadID e =? t) = false) es ->
  threadMap (fold_left process1 es st) !! t = Some ts.
Proof.
  induction es as [| e es IH]; intros st t ts Hts Hall; [exact Hts |].
  apply Forall_cons in Hall as [He Hall]. cbn [fold_left].
  apply IH; [| exact Hall]. by apply processEntry_keeps_start.
Qed.

(** X15. A recorded start time is never overwritten: while no "View is
    created." entry of the thread arrives, the start time recorded for the
    thread stays, whatever else is processed, further start entries of the
    same thread included. *)
Theorem processEntry_start_kept (es : list MessageLogEntry) (st : Tracker) t ts :
  threadMap st !! t = Some ts ->
  Forall (fun e => is_created e && (ThreadID e =? t) = false) es ->
  threadMap (fold_left process1 es st) !! t = Some ts.
Proof. apply fold_processEntry_keeps_start. Qed.

(** X16. Start and end are paired by thread: a start entry of a thread
    without recorded start, then any entries that are not a "View is
    created." entry of that thread, then its "View is created." entry, end
    with the line QUERY carrying the time stamps of the two entries, and
    with the thread removed from the map. *)
Theorem processEntry_pairs_start_and_end
    (st : Tracker) (e1 e2 : MessageLogEntry) (mid : list MessageLogEntry) t :
  threadMap st !! t = None ->
  is_view_create e1 = true -> is_created e1 = false -> ThreadID e1 = t ->
  Forall (fun e => is_created e && (ThreadID e =? t) = false) mid ->
  is_created e2 = true -> ThreadID e2 = t ->
  let st' := fold_left process1 (e1 :: mid ++ [e2]) st in
  (exists pre c,
     printed st' = pre ++ [QUERY c (time_Parse (TimeStamp e1)) (time_Parse (TimeStamp e2))])
  /\ threadMap st' !! t = None.
Proof.
  intros Hnone Hv1 Hc1 Ht1 Hmid Hc2 Ht2 st'. subst st'.
  cbn [fold_left]. rewrite fold_left_app. cbn [fold_left].
  assert (H1 : threadMap (process1 st e1) !! t = Some (time_Parse (TimeStamp e1))).
  { unfold is_created in Hc1. rewrite Hv1 in Hc1. cbn [andb] in Hc1.
    unfold is_view_create in Hv1. unfold processEntry.
    rewrite Hv1, Hc1, Ht1, Hnone. cbn [threadMap]. apply lookup_insert_eq. }
  pose proof (fold_processEntry_keeps_start mid _ _ _ H1 Hmid) as H2.
  set (st2 := fold_left process1 mid (process1 st e1)) in *.
  unfold is_created, is_view_create in Hc2. apply andb_true_iff in Hc2 as [Hl Hm].
  unfold processEntry. rewrite Hl, Hm, Ht2, H2. cbn [printed threadMap].
  split; [eauto |]. apply lookup_delete_eq.
Qed.

End Entries.

(** ** The run of main *)

Section MainRun.

Context {Net Time : Type}.
Variable RoundTrip : Net -> Request -> Net * (string + RawResponse).
Variable url_ok : string -> bool.
Variable time_Parse : string -> Time.
Variable json_Unmarshal : string -> string + MessageLogEntriesResponse.
Variable b64_EncodeToString : string -> string.

Local Abbreviation World := (World Net (Tracker (Time := Time))).
Local Abbreviation run_main :=
  (main RoundTrip url_ok time_Parse json_Unmarshal b64_EncodeToString).
Local Abbreviation version_request := (main_version_request b64_EncodeToString).
Local Abbreviation callback := (processMessageLogEntries time_Parse json_Unmarshal).

(** [main] in closed form, up to the call of [TrackCollection]. *)
Lemma main_eq env fuel (w : World) :
  run_main (Some env) fuel w =
  if negb (url_ok (main_version_url env)) then
    (Panic nil_dereference,
     {| Verbose := false; net := net w; bodies := bodies w; deferred := deferred w;
        stdout := stdout w; trace := trace w; user := user w |})
  else
  match RoundTrip (net w) (version_request env) with
  | (n', inl err) =>
      (Fatal err,
       {| Verbose := false; net := n'; bodies := bodies w; deferred := deferred w;
          stdout := stdout w; trace := trace w ++ [EvDo (version_request env)];
          user := user w |})
  | (n', inr raw) =>
      if raw_code raw =? 200 then
        let w1 :=
          {| Verbose := false; net := n'; bodies := bodies w ++ [drained_closed];
             deferred := deferred w; stdout := stdout w;
             trace := trace w ++ [EvDo (version_request env); EvClose (length (bodies w))];
             user := user w |} in
        match main_version_gate (raw_body raw) with
        | Ok _ =>
            TrackCollection RoundTrip url_ok fuel (Getenv env "TM1_SERVICE_ROOT_URL")
              "MessageLogEntries" (main_duration env) callback w1
        | Fatal msg => (Fatal msg, w1)
        | Panic msg => (Panic msg, w1)
        | OutOfFuel => (OutOfFuel, w1)
        end
      else
        (Fatal (main_version_context tt +:+ CRLF +:+ "Server responded with: "
                +:+ raw_status raw +:+ CRLF +:+ raw_body raw),
         {| Verbose := false; net := n'; bodies := bodies w ++ [drained_open];
            deferred := [length (bodies w)]; stdout := stdout w;
            trace := trace w ++ [EvDo (version_request env)]; user := user w |})
  end.
Proof.
  unfold main, NewRequest, main_version_request.
  destruct (url_ok (main_version_url env)); [| reflexivity]. cbn [negb].
  generalize (main_authorize b64_EncodeToString env
                (request_of "GET" (main_version_url env) None)) as req. intros req.
  generalize (TrackCollection RoundTrip url_ok fuel (Getenv env "TM1_SERVICE_ROOT_URL")
                "MessageLogEntries" (main_duration env) callback) as track.
  intros track.
  unfold bind at 1. unfold set_Verbose. unfold bind at 1. unfold Do.
  cbn [net bodies trace Verbose deferred stdout user].
  destruct (RoundTrip (net w) req) as [n' [err | raw]]; [reflexivity |].
  unfold bind at 1. unfold ValidateStatusCode, func. cbn [StatusCode Status Body].
  destruct (raw_code raw =? 200) eqn:E; cbn [negb].
  - unfold ret, set_deferred, bind, ReadAll, Close, lift_result.
    cbn [net bodies trace Verbose deferred stdout user run_deferred].
    rewrite lookup_fresh_body. cbn [closed unread set_bodies bodies].
    rewrite insert_fresh_body.
    cbn [net bodies trace Verbose deferred stdout user].
    rewrite lookup_fresh_body, insert_fresh_body. cbn [unread].
    unfold set_bodies. cbn [net bodies trace Verbose deferred stdout user].
    rewrite <- app_assoc. cbn [app].
    destruct (main_version_gate (raw_body raw)) as [[] | m | m |]; reflexivity.
  - unfold bind, DeferClose, ReadAll, log_Fatal, set_deferred.
    cbn [net bodies trace Verbose deferred stdout user].
    rewrite lookup_fresh_body. cbn [closed unread set_bodies bodies].
    rewrite insert_fresh_body. reflexivity.
Qed.

Lemma run_deferred_stdout (ds : list nat) : forall w : World,
  stdout (run_deferred ds w) = stdout w.
Proof.
  induction ds as [| id ds IH]; intros w; [reflexivity |].
  cbn [run_deferred]. by rewrite IH.
Qed.

Lemma func_stdout {A} (body : M Net (Tracker (Time := Time)) A) (w : World) :
  stdout (snd (func body w)) = stdout (snd (body (set_deferred [] w))).
Proof.
  unfold func.
  destruct (body (set_deferred [] w)) as [[a | m | m |] w']; cbn [snd stdout set_deferred];
    by rewrite ?run_deferred_stdout.
Qed.

Lemma func_no_unwind {A} (body : M Net (Tracker (Time := Time)) A) (w : World) :
  unwinds (fst (func body w)) = false ->
  snd (func body w) = snd (body (set_deferred [] w)).
Proof.
  unfold func.
  by destruct (body (set_deferred [] w)) as [[a | m | m |] w'].
Qed.

(** A call of [TrackCollection] leaves the bodies that existed before it as
    they were. *)
Lemma TrackCollection_keeps_bodies fuel root url interval
    (pr : Callback (Tracker (Time := Time)) (string * string)) (w : World) :
  exists bs,
    bodies (snd (TrackCollection RoundTrip url_ok fuel root url interval pr w)) = bodies w ++ bs.
Proof.
  destruct (TrackLoop_frame RoundTrip url_ok root interval pr fuel url (set_deferred [] w))
    as (new & k & Hf).
  destruct (unwinds (fst (TrackCollection RoundTrip url_ok fuel root url interval pr w))) eqn:E.
  - destruct (func_closes_frame _ _ _ _ Hf E) as (_ & Hb & _). eauto.
  - unfold TrackCollection in *. rewrite func_no_unwind by assumption.
    destruct Hf as (_ & Hb & _). eauto.
Qed.

(** X25. The version request of main is a GET for the product version under
    the configured root that asks for any content type and carries no
    OData-Version header and exactly one Authorization value: the
    CAMNamespace credentials (user, password and namespace) when
    TM1_AUTHENTICATION is exactly CAM, and basic credentials (user and
    password) for every other value, TM1 and the unset variable included. *)
Theorem main_version_request_auth (env : gmap string string) :
  Method (version_request env) = "GET"
  /\ URL (version_request env)
     = Getenv env "TM1_SERVICE_ROOT_URL" +:+ "Configuration/ProductVersion/$value"
  /\ ReqBody (version_request env) = None
  /\ Header_Values "Accept" (ReqHeader (version_request env)) = ["*/*"]
  /\ Header_Values "OData-Version" (ReqHeader (version_request env)) = []
  /\ (Getenv env "TM1_AUTHENTICATION" = "CAM" ->
      Header_Values "Authorization" (ReqHeader (version_request env))
      = ["CAMNamespace " +:+ b64_EncodeToString
           (Getenv env "TM1_USER" +:+ ":" +:+ Getenv env "TM1_PASSWORD" +:+ ":"
            +:+ Getenv env "TM1_CAM_NAMESPACE")])
  /\ (Getenv env "TM1_AUTHENTICATION" <> "CAM" ->
      Header_Values "Authorization" (ReqHeader (version_request env))
      = ["Basic " +:+ b64_EncodeToString
           (Getenv env "TM1_USER" +:+ ":" +:+ Getenv env "TM1_PASSWORD")]).
Proof.
  unfold main_version_request, main_authorize.
  destruct (String.eqb (Getenv env "TM1_AUTHENTICATION") "CAM") eqn:E.
  - apply String.eqb_eq in E. repeat split; try reflexivity. congruence.
  - apply String.eqb_neq in E. repeat split; try reflexivity. congruence.
Qed.

(** X17. main prints none of the request and response dumps of the client:
    it turns [Verbose] off before its first request, so the standard output
    of the client functions is unchanged at the end of any run, even when
    [Verbose] was set at the start (the default of the package). *)
Theorem main_prints_nothing dotenv fuel (w : World) :
  stdout (snd (run_main dotenv fuel w)) = stdout w.
Proof.
  destruct dotenv as [env |]; [| reflexivity].
  rewrite main_eq.
  destruct (url_ok (main_version_url env)); [| reflexivity]. cbn [negb].
  destruct (RoundTrip (net w) (version_request env)) as [n' [err | raw]]; [reflexivity |].
  destruct (raw_code raw =? 200); [| reflexivity]. cbv zeta.
  destruct (main_version_gate (raw_body raw)) as [[] | m | m |]; try reflexivity.
  unfold TrackCollection. rewrite func_stdout.
  match goal with
  | |- context [TrackLoop _ _ _ ?root ?url ?i ?pr ?w1] =>
      destruct (TrackLoop_frame RoundTrip url_ok root i pr fuel url w1)
        as (new & k & _ & _ & _ & _ & _ & _ & Hs & _)
  end.
  by rewrite Hs.
Qed.

(** X18. main tracks only after the version check: when the URL of the
    version request parses, the first request of a run is the version
    request, every later one is a tracking request under the configured
    root, every sleep lasts the configured duration, and there is a later
    request only if the version request was answered with status 200 and a
    body that passes the version gate. *)
Theorem main_tracks_after_version_check env fuel (w : World) :
  url_ok (main_version_url env) = true ->
  exists new rest,
    trace (snd (run_main (Some env) fuel w)) = trace w ++ new
    /\ requests new = version_request env :: rest
    /\ Forall (fun req => exists u,
                 req = TrackRequest (Getenv env "TM1_SERVICE_ROOT_URL" +:+ u)) rest
    /\ Forall (fun d => d = main_duration env) (sleeps new)
    /\ (rest <> [] ->
        exists n' raw,
          RoundTrip (net w) (version_request env) = (n', inr raw)
          /\ raw_code raw = 200
          /\ main_version_gate (raw_body raw) = Ok tt).
Proof.
  intros Hok. rewrite main_eq, Hok. cbn [negb].
  destruct (RoundTrip (net w) (version_request env)) as [n' [err | raw]].
  { exists [EvDo (version_request env)], []. simpl. repeat split; auto. congruence. }
  destruct (raw_code raw =? 200) eqn:E.
  2: { exists [EvDo (version_request env)], []. simpl. repeat split; auto. congruence. }
  apply Z.eqb_eq in E. cbv zeta.
  destruct (main_version_gate (raw_body raw)) as [[] | m | m |] eqn:G;
    try (exists [EvDo (version_request env); EvClose (length (bodies w))], [];
         simpl; repeat split; auto; congruence).
  match goal with
  | |- context [TrackCollection _ _ _ ?root ?url ?i ?pr ?w1] =>
      destruct (func_trace (TrackLoop RoundTrip url_ok fuel root url i pr) w1) as [ds Hds];
      destruct (TrackLoop_events RoundTrip url_ok root i pr fuel url (set_deferred [] w1))
        as (new & Htr & Hreq & Hsl & _)
  end.
  exists ([EvDo (version_request env); EvClose (length (bodies w))] ++ new ++ map EvClose ds),
    (requests new).
  unfold TrackCollection. rewrite Hds. cbv zeta in Htr. rewrite Htr.
  cbn [trace set_deferred].
  rewrite !requests_app, !sleeps_app, requests_closes, sleeps_closes, !app_nil_r.
  split; [by rewrite <- !app_assoc |].
  repeat split; eauto.
Qed.

(** X19. When the URL of the version request parses and the request is
    answered with status 200, main drains the body and closes it at once,
    before the version is examined and before any tracking: the close is
    the event that follows the request, and the body is closed at the end
    of the run however the run ends. *)
Theorem main_closes_version_body env fuel (w : World) n' raw :
  url_ok (main_version_url env) = true ->
  RoundTrip (net w) (version_request env) = (n', inr raw) ->
  raw_code raw = 200 ->
  (exists rest,
     trace (snd (run_main (Some env) fuel w))
     = trace w ++ EvDo (version_request env) :: EvClose (length (bodies w)) :: rest)
  /\ bodies (snd (run_main (Some env) fuel w)) !! length (bodies w) = Some drained_closed.
Proof.
  intros Hok HRT Hcode. rewrite main_eq, Hok, HRT. cbn [negb].
  apply Z.eqb_eq in Hcode. rewrite Hcode. cbv zeta.
  destruct (main_version_gate (raw_body raw)) as [[] | m | m |];
    try (cbn [snd trace bodies]; split; [by exists [] | apply lookup_fresh_body]).
  match goal with
  | |- context [TrackCollection _ _ _ ?root ?url ?i ?pr ?w1] =>
      destruct (func_trace (TrackLoop RoundTrip url_ok fuel root url i pr) w1) as [ds Hds];
      destruct (TrackLoop_events RoundTrip url_ok root i pr fuel url (set_deferred [] w1))
        as (new & Htr & _);
      destruct (TrackCollection_keeps_bodies fuel root url i pr w1) as [bs Hbs]
  end.
  rewrite Hbs. unfold TrackCollection. rewrite Hds. cbv zeta in Htr. rewrite Htr.
  cbn [trace bodies set_deferred]. split.
  - exists (new ++ map EvClose ds). by rewrite <- !app_assoc.
  - rewrite <- app_assoc. apply list_lookup_middle. reflexivity.
Qed.

(** X20. When the URL of the version request parses and the request is
    answered with another status than 200, main exits with the diagnostic
    of [ValidateStatusCode] (context, status line, body text) and has sent
    that one request only: no tracking request, no callback, no sleep. *)
Theorem main_status_mismatch env fuel (w : World) n' raw :
  url_ok (main_version_url env) = true ->
  RoundTrip (net w) (version_request env) = (n', inr raw) ->
  raw_code raw <> 200 ->
  exists w',
    run_main (Some env) fuel w
    = (Fatal (main_version_context tt +:+ CRLF +:+ "Server responded with: "
              +:+ raw_status raw +:+ CRLF +:+ raw_body raw), w')
    /\ trace w' = trace w ++ [EvDo (version_request env)]
    /\ user w' = user w.
Proof.
  intros Hok HRT Hcode. rewrite main_eq, Hok, HRT. cbn [negb].
  apply Z.eqb_neq in Hcode. rewrite Hcode.
  eexists. split; [reflexivity |]. auto.
Qed.

End MainRun.

(** ** Sleeping, validating, and the configured interval *)

Section Pace.

Context {Net CB : Type}.
Variable RoundTrip : Net -> Request -> Net * (string + RawResponse).
Variable url_ok : string -> bool.

Local Abbreviation World := (World Net CB).

(** The loop sleeps at most once per callback invocation. *)
Lemma TrackLoop_sleep_count root interval (pr : Callback CB (string * string)) fuel :
  forall url (w : World),
    (length (sleeps (trace (snd (TrackLoop RoundTrip url_ok fuel root url interval pr w))))
     + length (processed (trace w))
     <= length (sleeps (trace w))
        + length (processed (trace (snd (TrackLoop RoundTrip url_ok fuel root url interval pr w)))))%nat.
Proof.
  induction fuel as [| fuel IH]; intros url w.
  - simpl. destruct (is_empty url); simpl; lia.
  - destruct (is_empty url) eqn:E; [simpl; rewrite E; simpl; lia |].
    apply is_empty_false in E.
    rewrite TrackLoop_step, TrackFetch_eq by assumption. cbv zeta.
    destruct (url_ok (root +:+ url)); [| cbn [snd]; lia].
    destruct (RoundTrip (net w) _) as [n' [err | raw]].
    { cbn [snd trace]. rewrite sleeps_app, processed_app, !length_app. simpl. lia. }
    set (w1 := {| Verbose := Verbose w; net := n';
                  bodies := bodies w ++ [{| unread := ""; closed := false |}];
                  deferred := length (bodies w) :: deferred w;
                  stdout := _; trace := _; user := _ |}).
    assert (H1 : length (sleeps (trace w1)) = length (sleeps (trace w))
                 /\ length (processed (trace w1)) = S (length (processed (trace w)))).
    { subst w1. cbn [trace]. rewrite sleeps_app, processed_app, !length_app. simpl. lia. }
    destruct H1 as [Hs1 Hp1].
    destruct (snd (pr (user w) (raw_body raw))) as [[n d] | m | m |];
      try (cbn [snd]; lia).
    clearbody w1.
    destruct (is_empty n); cbn [negb].
    + destruct (is_empty d); cbn [negb snd]; [lia |].
      specialize (IH d (snd (Sleep interval w1))).
      rewrite Sleep_trace, sleeps_app, processed_app, !length_app in IH.
      change (length (processed [EvSleep interval])) with 0%nat in IH.
      change (length (sleeps [EvSleep interval])) with 1%nat in IH. lia.
    + specialize (IH n w1). lia.
Qed.

(** X21. [TrackCollection] sleeps for no other duration than the interval it
    was called with, and at most once per callback invocation; in
    particular it never sleeps before the first response was processed. *)
Theorem TrackCollection_sleep_budget
    fuel root url interval (pr : Callback CB (string * string)) (w : World) :
  exists new,
    trace (snd (TrackCollection RoundTrip url_ok fuel root url interval pr w)) = trace w ++ new
    /\ Forall (fun d => d = interval) (sleeps new)
    /\ (length (sleeps new) <= length (processed new))%nat.
Proof.
  unfold TrackCollection.
  destruct (func_trace (TrackLoop RoundTrip url_ok fuel root url interval pr) w) as [ds Hds].
  destruct (TrackLoop_events RoundTrip url_ok root interval pr fuel url (set_deferred [] w))
    as (new & Htr & _ & Hsl & _).
  pose proof (TrackLoop_sleep_count root interval pr fuel url (set_deferred [] w)) as Hc.
  cbv zeta in Htr. rewrite Htr in Hc. cbn [trace set_deferred] in Hc.
  rewrite sleeps_app, processed_app, !length_app in Hc.
  exists (new ++ map EvClose ds). split; [| split].
  - rewrite Hds, Htr. simpl. by rewrite app_assoc.
  - by rewrite sleeps_app, sleeps_closes, app_nil_r.
  - rewrite sleeps_app, processed_app, sleeps_closes, processed_closes, !app_nil_r. lia.
Qed.

(** X22. After [ValidateStatusCode] on the expected status the caller still
    has the whole body: reading it next gives everything that was unread,
    and validating has changed nothing else. *)
Theorem ValidateStatusCode_then_read
    (resp : Response) statusCode logFmt (w : World) (b : BodyState) :
  StatusCode resp = statusCode ->
  bodies w !! Body resp = Some b ->
  closed b = false ->
  bind (ValidateStatusCode resp statusCode logFmt) (fun _ => ReadAll (Body resp)) w
  = (Ok (unread b), set_bodies (<[Body resp := drained_open]> (bodies w)) w)
  /\ bind (ValidateStatusCode resp statusCode logFmt) (fun _ => ReadAll (Body resp)) w
     = ReadAll (Body resp) w.
Proof.
  intros Hs Hb Ho. unfold bind.
  rewrite ValidateStatusCode_match by assumption.
  unfold ReadAll. rewrite Hb, Ho. auto.
Qed.

End Pace.

(** [ParseUint] on no digits at all, or on a byte that is no digit among
    the first 20: this byte is reached before the digits read so far can
    leave the range of [uint64], and the answer is the syntax error. *)
Lemma ParseUint_syntax digits :
  digits = "" \/ all_digits (substring 0 20 digits) = false ->
  ParseUint digits = (0, Some ErrSyntax).
Proof.
  unfold ParseUint. intros [-> | H]; [reflexivity |].
  destruct (is_empty digits); [reflexivity |].
  apply (ParseUint_loop_syntax 20); [assumption | lia | by vm_compute].
Qed.

Lemma Atoi_syntax_error v :
  strip_sign v = "" \/ all_digits (substring 0 20 (strip_sign v)) = false ->
  Atoi v = (0, true).
Proof.
  unfold Atoi, strip_sign. destruct v as [| c rest]; [reflexivity |].
  destruct (Ascii.eqb c "+") eqn:Ep; cbn [orb].
  - intros H. by rewrite (ParseUint_syntax _ H).
  - destruct (Ascii.eqb c "-") eqn:Em.
    + intros H. by rewrite (ParseUint_syntax _ H).
    + intros H. by rewrite (ParseUint_syntax _ H).
Qed.

Lemma Atoi_digits c rest n :
  parse_digits 0 (String c rest) = Some n ->
  n <= MaxInt64 ->
  Atoi (String c rest) = (n, false).
Proof.
  intros H Hn. unfold Atoi.
  assert (Hp : Ascii.eqb c "+" = false).
  { destruct (Ascii.eqb c "+") eqn:E; [| reflexivity].
    apply Ascii.eqb_eq in E. subst c. simpl in H. discriminate. }
  assert (Hm : Ascii.eqb c "-" = false).
  { destruct (Ascii.eqb c "-") eqn:E; [| reflexivity].
    apply Ascii.eqb_eq in E. subst c. simpl in H. discriminate. }
  rewrite Hp, Hm. unfold ParseUint. cbn [is_empty].
  rewrite (ParseUint_loop_digits _ 0 n) by
    (try assumption; try lia; unfold MaxInt64, MaxUint64 in *; lia).
  cbn [negb andb].
  destruct (MaxInt64 <? n) eqn:E; [apply Z.ltb_lt in E; lia | reflexivity].
Qed.

(** X23. A value that has no digits after its optional sign, or a byte that
    is no digit among the first 20 bytes there, counts as not given: the
    interval is 5 seconds.  Such a byte is read before [strconv.Atoi] can
    find the digits before it out of range; the unset variable and the
    empty value are the first case. *)
Theorem main_interval_unreadable (env : gmap string string) :
  strip_sign (Getenv env "TM1_TRACKER_INTERVAL") = ""
  \/ all_digits (substring 0 20 (strip_sign (Getenv env "TM1_TRACKER_INTERVAL"))) = false ->
  main_interval env = 5 /\ main_duration env = 5 * Second.
Proof.
  intros H. unfold main_duration, main_interval.
  rewrite (Atoi_syntax_error _ H). by vm_compute.
Qed.

(** X24. A value made of decimal digits that reads as a number from 1 to
    9223372036 is the interval in seconds: that number is what [interval]
    holds, and the duration passed to [TrackCollection] is that many
    seconds, without wrap-around. *)
Theorem main_interval_of_digits (env : gmap string string) (s : string) (n : Z) :
  env !! "TM1_TRACKER_INTERVAL" = Some s ->
  s <> "" ->
  parse_digits 0 s = Some n ->
  1 <= n <= 9223372036 ->
  main_interval env = n /\ main_duration env = n * Second.
Proof.
  intros Henv Hs Hp Hn.
  destruct s as [| c rest]; [congruence |].
  apply (main_interval_in_range env (String c rest) n); auto.
  apply Atoi_digits; [assumption | unfold MaxInt64; lia].
Qed.

(** ** Concrete instances of the further properties *)

Lemma ExecutePOSTRequestEx_noop_hook_witness :
  ExecutePOSTRequestEx Replay escapes_ok (demo_root +:+ "Cubes") "application/json" "{}"
    (fun req w => (Ok req, w)) (demo_world three_responses 0%nat)
  = ExecutePOSTRequest Replay escapes_ok (demo_root +:+ "Cubes") "application/json" "{}"
      (demo_world three_responses 0%nat).
Proof.
  refine (proj1 (ExecutePOSTRequestEx_noop_hook Replay escapes_ok (demo_root +:+ "Cubes")
                   "application/json" "{}" (fun req w => (Ok req, w))
                   (demo_world three_responses 0%nat) _)).
  intros req w0. reflexivity.
Defined.

Lemma TrackCollection_closes_on_return_witness :
  let w := demo_world three_responses 0%nat in
  let run := TrackCollection Replay escapes_ok 3 demo_root "MessageLogEntries" (5 * Second) demo_pr w in
  exists new k,
    trace (snd run) = trace w ++ new ++ map EvClose (rev (seq (length (bodies w)) k))
    /\ bodies (snd run) = bodies w ++ replicate k drained_closed
    /\ deferred (snd run) = deferred w
    /\ length (processed new) = k
    /\ length (requests new) = k.
Proof.
  intros w run.
  apply (TrackCollection_closes_on_return Replay escapes_ok 3 demo_root "MessageLogEntries"
           (5 * Second) demo_pr w).
  vm_compute. reflexivity.
Defined.

Lemma IterateCollection_closes_on_return_witness :
  let w := demo_world (map inr two_pages) 0%nat in
  let run := IterateCollection Replay escapes_ok 2 demo_root "Cubes" demo_iter_pr w in
  exists new k,
    trace (snd run) = trace w ++ new ++ map EvClose (rev (seq (length (bodies w)) k))
    /\ bodies (snd run) = bodies w ++ replicate k drained_closed
    /\ deferred (snd run) = deferred w
    /\ length (processed new) = k
    /\ length (requests new) = k.
Proof.
  intros w run.
  apply (IterateCollection_closes_on_return Replay escapes_ok 2 demo_root "Cubes" demo_iter_pr w).
  vm_compute. reflexivity.
Defined.

Lemma transport_error_is_fatal_witness :
  let w := demo_world ([] : Replayed) 0%nat in
  (exists w',
     TrackLoop Replay escapes_ok 1 demo_root "Cubes" (5 * Second) demo_pr w = (Fatal "EOF", w')
     /\ trace w' = trace w ++ [EvDo (TrackRequest (demo_root +:+ "Cubes"))]
     /\ bodies w' = bodies w /\ user w' = user w /\ net w' = [])
  /\ (exists w',
        IterateLoop Replay escapes_ok 1 demo_root "Cubes" demo_iter_pr w = (Fatal "EOF", w')
        /\ trace w' = trace w ++ [EvDo (PlainRequest (demo_root +:+ "Cubes"))]
        /\ bodies w' = bodies w /\ user w' = user w /\ net w' = []).
Proof.
  intros w.
  assert (Hurl : "Cubes" <> "") by discriminate.
  assert (Hok : escapes_ok (demo_root +:+ "Cubes") = true) by reflexivity.
  pose proof (transport_error_is_fatal Replay escapes_ok 0 demo_root "Cubes" (5 * Second)
                demo_pr demo_iter_pr w Hurl Hok) as [HT HI].
  split.
  - apply (HT [] "EOF"). reflexivity.
  - apply (HI [] "EOF"). reflexivity.
Defined.

Lemma callback_failure_is_fatal_witness :
  let w := demo_world three_responses 0%nat in
  exists w',
    TrackLoop Replay escapes_ok 1 demo_root "MessageLogEntries" (5 * Second) failing_pr w
    = (Fatal "invalid character", w')
    /\ fst (TrackCollection Replay escapes_ok 1 demo_root "MessageLogEntries" (5 * Second) failing_pr w)
       = Fatal "invalid character"
    /\ trace w' = trace w ++
         [EvDo (TrackRequest (demo_root +:+ "MessageLogEntries")); EvProcess "page1"]
    /\ bodies w' = bodies w ++ [drained_open]
    /\ user w' = 0%nat.
Proof.
  intros w.
  apply (callback_failure_is_fatal Replay escapes_ok 0 demo_root "MessageLogEntries"
           (5 * Second) failing_pr w
           [inr (mkRaw 200 "200 OK" "page2"); inr (mkRaw 200 "200 OK" "delta1")]
           (mkRaw 200 "200 OK" "page1") "invalid character").
  - discriminate.
  - reflexivity.
  - reflexivity.
  - reflexivity.
Defined.

Lemma main_version_gate_prefix_witness :
  (main_version_gate ("10.2.20500" +:+ ".123") = Ok tt
   <-> main_version_gate "10.2.20500" = Ok tt)
  /\ (forall msg, main_version_gate ("10.2.20500" +:+ ".123") <> Panic msg).
Proof.
  apply (main_version_gate_prefix "10.2.20500" ".123"). reflexivity.
Defined.

Lemma main_version_gate_first_byte_witness :
  main_version_gate "9.5.2000000" = Ok tt.
Proof.
  apply (main_version_gate_first_byte "9" ".5.2000000").
  - simpl. lia.
  - vm_compute. lia.
Defined.

Lemma processEntry_numbers_witness :
  let es := [entry_start; entry_other; entry_end; entry_end] in
  queryCount (fold_left (processEntry (fun s => s)) es tracker0)
  = queryCount tracker0 + Z.of_nat (length (List.filter is_created es))
  /\ exists new,
       printed (fold_left (processEntry (fun s => s)) es tracker0)
       = printed tracker0 ++ new
       /\ omap result_count new
          = count_up (queryCount tracker0) (length (List.filter is_created es)).
Proof.
  intros es.
  apply (processEntry_numbers (fun s => s) es tracker0).
  - vm_compute. discriminate.
  - vm_compute. discriminate.
Defined.

Lemma processEntry_start_kept_witness :
  threadMap (fold_left (processEntry (fun s => s)) [entry_start; entry_other]
               tracker_started) !! 7
  = Some "2017-03-01T09:59:00.000Z".
Proof.
  apply (processEntry_start_kept (fun s => s) [entry_start; entry_other]
           tracker_started 7 "2017-03-01T09:59:00.000Z").
  - reflexivity.
  - repeat constructor.
Defined.

Lemma processEntry_pairs_start_and_end_witness :
  let st' := fold_left (processEntry (fun s => s))
               (entry_start :: [entry_other; entry_start] ++ [entry_end]) tracker0 in
  (exists pre c,
     printed st' = pre ++ [QUERY c "2017-03-01T10:00:00.000Z" "2017-03-01T10:00:02.000Z"])
  /\ threadMap st' !! 7 = None.
Proof.
  apply (processEntry_pairs_start_and_end (fun s => s) tracker0 entry_start entry_end
           [entry_other; entry_start] 7).
  - reflexivity.
  - reflexivity.
  - reflexivity.
  - reflexivity.
  - repeat constructor.
  - reflexivity.
  - reflexivity.
Defined.

Lemma main_tracks_after_version_check_witness :
  let w := demo_world [inr version_ok] tracker0 in
  let run := main Replay escapes_ok (fun s => s) demo_Unmarshal (fun s => s)
               (Some demo_env) 1 w in
  exists new rest,
    trace (snd run) = trace w ++ new
    /\ requests new = main_version_request (fun s => s) demo_env :: rest
    /\ Forall (fun req => exists u,
                 req = TrackRequest (Getenv demo_env "TM1_SERVICE_ROOT_URL" +:+ u)) rest
    /\ Forall (fun d => d = main_duration demo_env) (sleeps new)
    /\ (rest <> [] ->
        exists n' raw,
          Replay (net w) (main_version_request (fun s => s) demo_env) = (n', inr raw)
          /\ raw_code raw = 200
          /\ main_version_gate (raw_body raw) = Ok tt).
Proof.
  intros w run.
  apply (main_tracks_after_version_check Replay escapes_ok (fun s => s) demo_Unmarshal
           (fun s => s) demo_env 1 w).
  reflexivity.
Defined.

Lemma main_closes_version_body_witness :
  let w := demo_world [inr version_ok] tracker0 in
  let run := main Replay escapes_ok (fun s => s) demo_Unmarshal (fun s => s) (Some demo_env) 1 w in
  (exists rest,
     trace (snd run)
     = trace w ++ EvDo (main_version_request (fun s => s) demo_env)
                  :: EvClose (length (bodies w)) :: rest)
  /\ bodies (snd run) !! length (bodies w) = Some drained_closed.
Proof.
  intros w run.
  apply (main_closes_version_body Replay escapes_ok (fun s => s) demo_Unmarshal
           (fun s => s) demo_env 1 w [] version_ok).
  - reflexivity.
  - reflexivity.
  - reflexivity.
Defined.

Lemma main_status_mismatch_witness :
  let w := demo_world [inr version_unauthorized] tracker0 in
  exists w',
    main Replay escapes_ok (fun s => s) demo_Unmarshal (fun s => s) (Some demo_env) 1 w
    = (Fatal (main_version_context tt +:+ CRLF +:+ "Server responded with: "
              +:+ "401 Unauthorized" +:+ CRLF +:+ "no"), w')
    /\ trace w' = trace w ++ [EvDo (main_version_request (fun s => s) demo_env)]
    /\ user w' = user w.
Proof.
  intros w.
  apply (main_status_mismatch Replay escapes_ok (fun s => s) demo_Unmarshal
           (fun s => s) demo_env 1 w [] version_unauthorized).
  - reflexivity.
  - reflexivity.
  - discriminate.
Defined.

Lemma ValidateStatusCode_then_read_witness :
  bind (ValidateStatusCode not_found 404 version_context)
    (fun _ => ReadAll (Body not_found)) not_found_world
  = (Ok "no such resource",
     set_bodies (<[0%nat := drained_open]> (bodies not_found_world)) not_found_world).
Proof.
  refine (proj1 (ValidateStatusCode_then_read not_found 404 version_context
                   not_found_world {| unread := "no such resource"; closed := false |}
                   _ _ _)); reflexivity.
Defined.

Lemma main_interval_unreadable_witness :
  main_interval (interval_env "soon") = 5
  /\ main_duration (interval_env "soon") = 5 * Second.
Proof.
  apply (main_interval_unreadable (interval_env "soon")).
  right. vm_compute. reflexivity.
Defined.

Lemma main_interval_of_digits_witness :
  main_interval (interval_env "30") = 30
  /\ main_duration (interval_env "30") = 30 * Second.
Proof.
  apply (main_interval_of_digits (interval_env "30") "30" 30).
  - reflexivity.
  - discriminate.
  - reflexivity.
  - lia.
Defined.
